(** * Flashbots bundle submission: a model of [examples/simple.py]

    The script builds a bundle of two EIP-1559 transfers, sends it to the
    Flashbots relay for a block ahead of the chain head and repeats the
    submission until a receipt of the bundle is found on chain.  It also
    carries a stand-alone helper, [simulate_bundle], which posts an
    authenticated [eth_callBundle] request.

    The model is a shallow embedding.  Pure code is written as functions.
    Code that talks to the outside (the chain node, the relay, the clock,
    the random sources) runs in a small monad that threads an abstract
    world, records every interaction in a log, propagates Python
    exceptions and counts loop iterations with fuel. *)

From Stdlib Require Import ZArith List String Ascii Lia Bool QArith Qround.
From Stdlib.Strings Require Import Byte.
From Stdlib Require Import DecimalString HexadecimalString.
From Stdlib Require Import HexadecimalPos HexadecimalN.
Import ListNotations.

Set Implicit Arguments.

Local Open Scope Z_scope.
Local Open Scope list_scope.

(** ** Python values used by the script *)

Definition bytes := list byte.

(** [str(n)] for a Python integer. *)
Definition str_int (z : Z) : string :=
  DecimalString.NilZero.string_of_int (Z.to_int z).

Module Hex.

(** The sixteen digits, in order of their value. *)
Definition alphabet : list ascii := list_ascii_of_string "0123456789abcdef".

Definition hex_digit (n : N) : ascii := nth (N.to_nat n) alphabet "f"%char.

Definition digits_of_byte (b : byte) : ascii * ascii :=
  let n := Byte.to_N b in (hex_digit (n / 16), hex_digit (n mod 16)).

Fixpoint digits (bs : bytes) : string :=
  match bs with
  | [] => EmptyString
  | b :: rest =>
      let (hi, lo) := digits_of_byte b in String hi (String lo (digits rest))
  end.

(** [HexBytes.hex()] and [w3.toHex] on bytes: the digits after [0x]. *)
Definition hex (bs : bytes) : string := ("0x" ++ digits bs)%string.

(** [w3.toHex] on an integer: Python's [hex]. *)
Definition toHex (z : Z) : string :=
  if z <? 0
  then ("-0x" ++ HexadecimalString.NilZero.string_of_uint
                   (N.to_hex_uint (Z.to_N (- z))))%string
  else ("0x" ++ HexadecimalString.NilZero.string_of_uint
                  (N.to_hex_uint (Z.to_N z)))%string.

(** Decoding of one pair of digits, used to show that [hex] loses nothing. *)
Fixpoint position (c : ascii) (l : list ascii) (i : N) : option N :=
  match l with
  | [] => None
  | x :: rest => if Ascii.eqb c x then Some i else position c rest (i + 1)%N
  end.

Definition value_of_digit (c : ascii) : option N := position c alphabet 0%N.

Definition byte_of_digits (hi lo : ascii) : option byte :=
  match value_of_digit hi, value_of_digit lo with
  | Some h, Some l => Byte.of_N (h * 16 + l)
  | _, _ => None
  end.

End Hex.

(** ** Transaction model *)

(** The units the script names.  (web3's table has more; the script uses
    only these two besides wei.) *)
Inductive currency_unit := wei | gwei | ether.

Definition unit_value (u : currency_unit) : Z :=
  match u with
  | wei => 1
  | gwei => 10 ^ 9
  | ether => 10 ^ 18
  end.

(** [Web3.toWei(number, unit)]: the number, read as an exact decimal, times
    the unit, as an integer. *)
Definition toWei (number : Q) (u : currency_unit) : Z :=
  Qfloor (number * inject_Z (unit_value u)).

Record LocalAccount := {
  address : string;
  privateKey : bytes
}.

Record TxParams := {
  to : string;
  value : Z;
  gas : Z;
  maxFeePerGas : Z;
  maxPriorityFeePerGas : Z;
  nonce : Z;
  chainId : Z;
  type : Z
}.

(** The two shapes of a bundle entry: raw signed bytes, or a transaction
    together with the account that signs it at submission time. *)
Inductive BundleEntry :=
| signed_transaction (raw : bytes)
| signer_transaction (signer : LocalAccount) (transaction : TxParams).

Definition Bundle := list BundleEntry.

Record Receipt := {
  blockNumber : Z;
  transactionHash : bytes
}.

(** JSON values handed to [json.dumps] and returned by [response.json()]. *)
#[local] Set Warnings "-register-all".
Inductive json :=
| JNull
| JBool (b : bool)
| JInt (z : Z)
| JString (s : string)
| JArray (items : list json)
| JObject (fields : list (string * json)).

(** ** Personal-message encoding

    [eth_account.messages.encode_defunct(text=...)]: the EIP-191 version
    byte [E], the header [thereum Signed Message:\n] followed by the decimal
    length of the message, and the message itself. *)

Record SignableMessage := {
  version : string;
  header : string;
  body : string
}.

Definition encode_defunct (text : string) : SignableMessage :=
  {| version := "E";
     header := ("thereum Signed Message:" ++ String "010" EmptyString
                ++ str_int (Z.of_nat (String.length text)))%string;
     body := text |}.

(** ** Exceptions and interaction log *)

Inductive exception :=
| TransactionNotFound
| ConnectionError
| ValueError (msg : string)
| IndexError.

(** What a call to the outside gives back. *)
Inductive reply (A : Type) :=
| Return (a : A)
| Throw (e : exception).
Arguments Return {A} a.
Arguments Throw {A} e.

(** Everything the script does that is visible from outside, in order.
    Reads of the chain and of the random sources are logged with what they
    gave. *)
Inductive event :=
| Print (line : string)
| RandomAccount (account : LocalAccount)
| Flashbot (endpoint_uri : option string)
| GetBalance (account : string) (r : reply Z)
| GetTransactionCount (account : string) (r : reply Z)
| BlockNumber (r : reply Z)
| Uuid4 (u : string)
| SendBundle (bundle : Bundle) (target_block_number : Z)
             (opts : list (string * string))
| Sleep (seconds : Z)
| GetBundleStats (bundle_hash : string) (block : Z)
| GetBundleStatsV2 (bundle_hash : string) (block : Z)
| Wait
| Receipts (r : reply (list Receipt))
| Post (url : string) (data : string) (headers : list (string * string)).

(** How a run of a piece of the script ends: with a value, with an
    exception on its way up, or cut short because the loop used up its
    fuel. *)
Inductive outcome (A : Type) :=
| Ok (a : A)
| Raise (e : exception)
| OutOfFuel.
Arguments Ok {A} a.
Arguments Raise {A} e.
Arguments OutOfFuel {A}.

(** What one iteration tells the loop around it. *)
Inductive loop_ctl := Break | Continue.

(** ** Module-level configuration *)

(** [CHAIN_ID = 5 if USE_SEPOLIA else 1] *)
Definition CHAIN_ID (USE_SEPOLIA : bool) : Z := if USE_SEPOLIA then 5 else 1.

(** The value of the flag as the script ships. *)
Definition USE_SEPOLIA_default : bool := true.

(** ** The outside world

    [W] is the state of everything outside the script (chain, relay, clock,
    random sources).  [Stats], [SendResult] and [Response] are the opaque
    objects the libraries hand back.  A call to the network may raise; the
    local library functions are pure. *)

Section Script.

Variables (W Stats SendResult Response : Type).

Record Env := {
  (* module-level accounts *)
  sender : LocalAccount;
  signer : LocalAccount;
  (* eth_account, web3, json: pure library code *)
  sign_transaction : LocalAccount -> TxParams -> bytes;
  keccak : string -> bytes;
  sign_message : SignableMessage -> string -> bytes;
  json_dumps : json -> string;
  str_ether : Z -> string;
  repr_bundle : Bundle -> string;
  repr_stats : Stats -> string;
  (* random sources and the clock *)
  new_account : W -> LocalAccount * W;
  uuid4 : W -> string * W;
  time_sleep : Z -> W -> W;
  (* chain node *)
  eth_get_balance : string -> W -> reply Z * W;
  eth_get_transaction_count : string -> W -> reply Z * W;
  eth_block_number : W -> reply Z * W;
  (* relay, through the flashbots middleware *)
  flashbots_send_bundle :
    Bundle -> Z -> list (string * string) -> W -> reply SendResult * W;
  flashbots_get_bundle_stats : string -> Z -> W -> reply Stats * W;
  flashbots_get_bundle_stats_v2 : string -> Z -> W -> reply Stats * W;
  bundle_hash : SendResult -> bytes;
  send_result_wait : SendResult -> W -> reply unit * W;
  send_result_receipts : SendResult -> W -> reply (list Receipt) * W;
  (* requests *)
  requests_post :
    string -> string -> list (string * string) -> W -> reply Response * W;
  response_json : Response -> reply json
}.

(** *** The monad *)

Record state := {
  world : W;
  log : list event
}.

Definition M (A : Type) := state -> outcome A * state.

Definition ret {A} (a : A) : M A := fun s => (Ok a, s).

Definition bind {A B} (m : M A) (k : A -> M B) : M B :=
  fun s =>
    match m s with
    | (Ok a, s') => k a s'
    | (Raise e, s') => (Raise e, s')
    | (OutOfFuel, s') => (OutOfFuel, s')
    end.

Notation "x <- m ;; k" := (bind m (fun x => k))
  (at level 61, m at next level, right associativity).
Notation "m ;; k" := (bind m (fun _ => k))
  (at level 61, right associativity).

Definition emit (e : event) : M unit :=
  fun s => (Ok tt, {| world := world s; log := log s ++ [e] |}).

Definition print (line : string) : M unit := emit (Print line).

(** A call that may raise: the world moves, the call is logged. *)
Definition interact {A} (op : W -> reply A * W) (ev : reply A -> event)
  : M A :=
  fun s =>
    let (r, w) := op (world s) in
    let s' := {| world := w; log := log s ++ [ev r] |} in
    match r with
    | Return a => (Ok a, s')
    | Throw e => (Raise e, s')
    end.

(** A call that cannot raise. *)
Definition draw {A} (op : W -> A * W) (ev : A -> event) : M A :=
  fun s =>
    let (a, w) := op (world s) in
    (Ok a, {| world := w; log := log s ++ [ev a] |}).

Definition lift {A} (r : reply A) : M A :=
  fun s => match r with Return a => (Ok a, s) | Throw e => (Raise e, s) end.

(** [try: body except <those the handler takes>: ...] *)
Definition try_except {A} (body : M A) (handler : exception -> option (M A))
  : M A :=
  fun s =>
    match body s with
    | (Raise e, s') =>
        match handler e with
        | Some h => h s'
        | None => (Raise e, s')
        end
    | r => r
    end.

(** [while True: body], cut after [fuel] iterations. *)
Fixpoint while_true (fuel : nat) (body : M loop_ctl) : M unit :=
  fun s =>
    match fuel with
    | O => (OutOfFuel, s)
    | S n =>
        match body s with
        | (Ok Break, s') => (Ok tt, s')
        | (Ok Continue, s') => while_true n body s'
        | (Raise e, s') => (Raise e, s')
        | (OutOfFuel, s') => (OutOfFuel, s')
        end
    end.

(** [xs[i]] *)
Definition index {A} (xs : list A) (i : nat) : M A :=
  match nth_error xs i with
  | Some x => ret x
  | None => fun s => (Raise IndexError, s)
  end.

(** *** The script *)

Variable E : Env.
Variable USE_SEPOLIA : bool.

Definition random_account : M LocalAccount :=
  draw (new_account E) RandomAccount.

(** [flashbot(w3, signer, endpoint_uri)] installs the relay middleware. *)
Definition flashbot (endpoint_uri : option string) : M unit :=
  emit (Flashbot endpoint_uri).

Definition get_balance (a : string) : M Z :=
  interact (eth_get_balance E a) (GetBalance a).

Definition get_transaction_count (a : string) : M Z :=
  interact (eth_get_transaction_count E a) (GetTransactionCount a).

Definition block_number : M Z :=
  interact (eth_block_number E) BlockNumber.

Definition send_bundle (bundle : Bundle) (target_block_number : Z)
           (opts : list (string * string)) : M SendResult :=
  interact (flashbots_send_bundle E bundle target_block_number opts)
           (fun _ => SendBundle bundle target_block_number opts).

Definition get_bundle_stats (h : string) (block : Z) : M Stats :=
  interact (flashbots_get_bundle_stats E h block)
           (fun _ => GetBundleStats h block).

Definition get_bundle_stats_v2 (h : string) (block : Z) : M Stats :=
  interact (flashbots_get_bundle_stats_v2 E h block)
           (fun _ => GetBundleStatsV2 h block).

Definition sleep (seconds : Z) : M unit :=
  fun s => (Ok tt, {| world := time_sleep E seconds (world s);
                      log := log s ++ [Sleep seconds] |}).

Definition wait (r : SendResult) : M unit :=
  interact (send_result_wait E r) (fun _ => Wait).

Definition receipts (r : SendResult) : M (list Receipt) :=
  interact (send_result_receipts E r) Receipts.

Definition post (url data : string) (headers : list (string * string))
  : M Response :=
  interact (requests_post E url data headers)
           (fun _ => Post url data headers).

(** Lines 64-65: the value of the [X-Flashbots-Signature] header for a
    request body, signed with the account [k]. *)
Definition flashbots_signature (k : LocalAccount) (body : string) : string :=
  let message := encode_defunct (Hex.hex (keccak E body)) in
  (address k ++ ":"
   ++ Hex.hex (sign_message E message (Hex.hex (privateKey k))))%string.

Definition callBundle_request (bundle : list string) (target_blk_hex : string)
  : json :=
  JObject
    [("jsonrpc", JString "2.0");
     ("id", JInt 0);
     ("method", JString "eth_callBundle");
     ("params",
       JArray
         [JObject
            [("txs", JArray (map JString bundle));
             ("blockNumber", JString target_blk_hex);
             ("stateBlockNumber", JString "latest")]])]%string.

Definition simulate_bundle (bundle : list string) (target_blk_num : Z)
  : M json :=
  let url := "https://relay-sepolia.flashbots.net"%string in
  let target_blk_hex := Hex.toHex target_blk_num in
  let data := callBundle_request bundle target_blk_hex in
  let body := json_dumps E data in
  let signature := flashbots_signature (signer E) body in
  let headers :=
    [("Content-Type", "application/json");
     ("X-Flashbots-Signature", signature)]%string in
  response <- post url body headers ;;
  lift (response_json E response).

Definition tx1 (receiverAddress : string) (nonce : Z) : TxParams :=
  {| to := receiverAddress;
     value := toWei (1 # 1000) ether;
     gas := 21000;
     maxFeePerGas := toWei (200 # 1) gwei;
     maxPriorityFeePerGas := toWei (50 # 1) gwei;
     nonce := nonce;
     chainId := CHAIN_ID USE_SEPOLIA;
     type := 2 |}.

Definition tx2 (receiverAddress : string) (nonce : Z) : TxParams :=
  {| to := receiverAddress;
     value := toWei (1 # 1000) ether;
     gas := 21000;
     maxFeePerGas := toWei (200 # 1) gwei;
     maxPriorityFeePerGas := toWei (50 # 1) gwei;
     nonce := nonce + 1;
     chainId := CHAIN_ID USE_SEPOLIA;
     type := 2 |}.

(** Lines 119 and 134-137: the first entry is signed on the spot, the
    second is left to the middleware. *)
Definition make_bundle (receiverAddress : string) (nonce : Z) : Bundle :=
  let tx1_signed := sign_transaction E (sender E) (tx1 receiverAddress nonce) in
  [signed_transaction tx1_signed;
   signer_transaction (sender E) (tx2 receiverAddress nonce)].

Definition nl : string := String "010" EmptyString.
Definition bel : string := String "007" EmptyString.

(** Lines 183-191: the inclusion check. *)
Definition check_receipts (block : Z) (send_result : SendResult)
  : M loop_ctl :=
  try_except
    (rs <- receipts send_result ;;
     r0 <- index rs 0 ;;
     print (nl ++ "Bundle was mined in block " ++ str_int (blockNumber r0)
            ++ bel) ;;
     ret Break)
    (fun e =>
       match e with
       | TransactionNotFound =>
           Some (print ("Bundle not found in block " ++ str_int (block + 1)) ;;
                 ret Continue)
       | _ => None
       end).

(** Lines 143-191: one iteration of the loop. *)
Definition attempt (bundle : Bundle) : M loop_ctl :=
  block <- block_number ;;
  print ("Simulating on block " ++ str_int block) ;;
  print ("Sending bundle targeting block " ++ str_int (block + 1)) ;;
  replacement_uuid <- draw (uuid4 E) Uuid4 ;;
  print ("replacementUuid " ++ replacement_uuid) ;;
  send_result <-
    send_bundle bundle (block + 10)
                [("replacementUuid"%string, replacement_uuid)] ;;
  print ("bundleHash " ++ Hex.hex (bundle_hash E send_result)) ;;
  sleep 12 ;;
  stats_v1 <- get_bundle_stats (Hex.hex (bundle_hash E send_result)) block ;;
  print ("bundleStats v1 " ++ repr_stats E stats_v1) ;;
  stats_v2 <- get_bundle_stats_v2 (Hex.hex (bundle_hash E send_result)) block ;;
  print ("bundleStats v2 " ++ repr_stats E stats_v2) ;;
  wait send_result ;;
  check_receipts block send_result.

Definition show_balances (receiverAddress : string) : M unit :=
  b1 <- get_balance (address (sender E)) ;;
  print ("Sender account balance: " ++ str_ether E b1 ++ " ETH") ;;
  b2 <- get_balance receiverAddress ;;
  print ("Receiver account balance: " ++ str_ether E b2 ++ " ETH").

(** Lines 107-138: the nonce is read and the bundle assembled. *)
Definition build : string -> M Bundle :=
  fun receiverAddress =>
    nonce <- get_transaction_count (address (sender E)) ;;
    print ("Nonce: " ++ str_int nonce) ;;
    let bundle := make_bundle receiverAddress nonce in
    print ("Bundle: " ++ repr_bundle E bundle) ;;
    ret bundle.

(** Lines 78-138: everything [main] does before the loop, giving the
    receiver's address and the bundle.  [main] below spells these lines out
    again; [main_split] shows that it is this followed by the loop. *)
Definition prologue : M (string * Bundle) :=
  receiver <- random_account ;;
  let receiverAddress := address receiver in
  (if USE_SEPOLIA
   then flashbot (Some "https://relay-goerli.flashbots.net"%string)
   else flashbot None) ;;
  print ("Sender address: " ++ address (sender E)) ;;
  print ("Receiver address: " ++ receiverAddress) ;;
  show_balances receiverAddress ;;
  bundle <- build receiverAddress ;;
  ret (receiverAddress, bundle).

Definition main (fuel : nat) : M unit :=
  receiver <- random_account ;;
  let receiverAddress := address receiver in
  (if USE_SEPOLIA
   then flashbot (Some "https://relay-goerli.flashbots.net"%string)
   else flashbot None) ;;
  print ("Sender address: " ++ address (sender E)) ;;
  print ("Receiver address: " ++ receiverAddress) ;;
  show_balances receiverAddress ;;
  bundle <- build receiverAddress ;;
  while_true fuel (attempt bundle) ;;
  show_balances receiverAddress.

End Script.

(** ** Reading a log *)

(** The [replacementUuid] entry of the options of a [send_bundle] call. *)
Definition replacement_of (opts : list (string * string)) : list string :=
  map snd (filter (fun kv => String.eqb (fst kv) "replacementUuid") opts).

(** The [send_bundle] calls of a log, oldest first. *)
Definition sends (l : list event)
  : list (Bundle * Z * list (string * string)) :=
  flat_map (fun e => match e with
                     | SendBundle b t o => [(b, t, o)]
                     | _ => []
                     end) l.

Definition sent_bundles (l : list event) : list Bundle :=
  map (fun c => fst (fst c)) (sends l).

Definition sent_targets (l : list event) : list Z :=
  map (fun c => snd (fst c)) (sends l).

Definition sent_uuids (l : list event) : list string :=
  flat_map (fun c => replacement_of (snd c)) (sends l).

(** The values [uuid4] gave, oldest first. *)
Definition drawn_uuids (l : list event) : list string :=
  flat_map (fun e => match e with Uuid4 u => [u] | _ => [] end) l.

(** The chain heads read with success. *)
Definition blocks_read (l : list event) : list Z :=
  flat_map (fun e => match e with
                     | BlockNumber (Return b) => [b]
                     | _ => []
                     end) l.

(** The reads of the sender's transaction count. *)
Definition nonce_reads (l : list event) : list (reply Z) :=
  flat_map (fun e => match e with
                     | GetTransactionCount _ r => [r]
                     | _ => []
                     end) l.

(** The answers to the inclusion checks. *)
Definition checks (l : list event) : list (reply (list Receipt)) :=
  flat_map (fun e => match e with Receipts r => [r] | _ => [] end) l.

Definition printed (l : list event) : list string :=
  flat_map (fun e => match e with Print line => [line] | _ => [] end) l.

(** The requests posted by [simulate_bundle] (the only [eth_callBundle]
    in the script). *)
Definition posts (l : list event)
  : list (string * string * list (string * string)) :=
  flat_map (fun e => match e with
                     | Post u d h => [(u, d, h)]
                     | _ => []
                     end) l.

Definition endpoints (l : list event) : list (option string) :=
  flat_map (fun e => match e with Flashbot u => [u] | _ => [] end) l.

(** The log without what is printed: the calls made, in order. *)
Definition calls (l : list event) : list event :=
  filter (fun e => match e with Print _ => false | _ => true end) l.

(** [s.startswith(p)] *)
Fixpoint starts_with (p s : string) : bool :=
  match p, s with
  | EmptyString, _ => true
  | String a p', String b s' => Ascii.eqb a b && starts_with p' s'
  | String _ _, EmptyString => false
  end.

(** The lines that announce the target of an attempt. *)
Definition announced (l : list event) : list string :=
  filter (starts_with "Sending bundle targeting block ") (printed l).

(** A scan of the log for the order of sleeping and stats queries.  The
    first component stays [true] as long as every stats query met so far
    came after a sleep of [seconds] with only printing and stats queries in
    between; the second tells whether such a sleep is still in force. *)
Definition sleep_step (seconds : Z) (st : bool * bool) (e : event)
  : bool * bool :=
  match e with
  | Sleep n => (fst st, n =? seconds)
  | Print _ => st
  | GetBundleStats _ _ | GetBundleStatsV2 _ _ => (fst st && snd st, snd st)
  | _ => (fst st, false)
  end.

Definition stats_after_sleep (seconds : Z) (l : list event) : bool :=
  fst (fold_left (sleep_step seconds) l (true, false)).

(** The initial state of a run: a world and an empty log. *)
Definition start (W : Type) (w : W) : state W := {| world := w; log := [] |}.

(** The same environment with other answers to the two stats queries. *)
Definition with_stats (W Stats SendResult Response : Type)
           (E : Env W Stats SendResult Response)
           (v1 v2 : string -> Z -> W -> reply Stats * W)
  : Env W Stats SendResult Response :=
  {| sender := sender E;
     signer := signer E;
     sign_transaction := sign_transaction E;
     keccak := keccak E;
     sign_message := sign_message E;
     json_dumps := json_dumps E;
     str_ether := str_ether E;
     repr_bundle := repr_bundle E;
     repr_stats := repr_stats E;
     new_account := new_account E;
     uuid4 := uuid4 E;
     time_sleep := time_sleep E;
     eth_get_balance := eth_get_balance E;
     eth_get_transaction_count := eth_get_transaction_count E;
     eth_block_number := eth_block_number E;
     flashbots_send_bundle := flashbots_send_bundle E;
     flashbots_get_bundle_stats := v1;
     flashbots_get_bundle_stats_v2 := v2;
     bundle_hash := bundle_hash E;
     send_result_wait := send_result_wait E;
     send_result_receipts := send_result_receipts E;
     requests_post := requests_post E;
     response_json := response_json E |}.

(** Two answers that differ at most in the value returned. *)
Definition same_but_value (A W : Type) (x y : reply A * W) : Prop :=
  snd x = snd y /\
  match fst x, fst y with
  | Return _, Return _ => True
  | Throw e, Throw e' => e = e'
  | _, _ => False
  end.

(** ** Describing what a piece of the script adds to the log *)

(** A property of log segments that holds of the empty segment and of the
    concatenation of two segments that have it. *)
Definition closed (I : list event -> Prop) : Prop :=
  I [] /\ forall a b, I a -> I b -> I (a ++ b).

(** [m] only ever appends to the log, and what it appends satisfies [I]. *)
Definition emits (W A : Type) (I : list event -> Prop) (m : M W A) : Prop :=
  forall s, exists d, log (snd (m s)) = log s ++ d /\ I d.

(** The scan of [stats_after_sleep] stays good across the segment. *)
Definition keeps_order (d : list event) : Prop :=
  forall st, fst st = true -> fst (fold_left (sleep_step 12) d st) = true.

(** A segment without any relay traffic: what the lines outside the loop
    add. *)
Definition quiet (d : list event) : Prop :=
  sends d = [] /\ drawn_uuids d = [] /\ blocks_read d = [] /\
  announced d = [] /\ posts d = [] /\ checks d = [] /\ keeps_order d.

(** What the iterations of the loop add, for the bundle they are given. *)
Definition attempt_facts (bundle : Bundle) (d : list event) : Prop :=
  sent_uuids d = drawn_uuids d /\
  List.length (drawn_uuids d) = List.length (sends d) /\
  List.length (blocks_read d) = List.length (sends d) /\
  sent_targets d = map (fun b => b + 10) (blocks_read d) /\
  announced d
  = map (fun b => ("Sending bundle targeting block " ++ str_int (b + 1))%string)
        (blocks_read d) /\
  Forall (eq bundle) (sent_bundles d) /\
  posts d = [] /\ nonce_reads d = [] /\ endpoints d = [] /\
  keeps_order d.

(** A quiet segment that neither reads the nonce nor installs the
    middleware: what the lines after the loop add. *)
Definition inert (d : list event) : Prop :=
  quiet d /\ nonce_reads d = [] /\ endpoints d = [].

(** The relay the middleware is pointed at. *)
Definition relay_override (USE_SEPOLIA : bool) : option string :=
  if USE_SEPOLIA
  then Some "https://relay-goerli.flashbots.net"%string
  else None.

(** A call that answers. *)
Definition answers (A W : Type) (x : reply A * W) : Prop :=
  exists a, fst x = Return a.

(** An environment in which every call to the node and to the relay, the
    inclusion check apart, answers. *)
Definition responsive (W Stats SendResult Response : Type)
           (E : Env W Stats SendResult Response) : Prop :=
  (forall a w, answers (eth_get_balance E a w)) /\
  (forall a w, answers (eth_get_transaction_count E a w)) /\
  (forall w, answers (eth_block_number E w)) /\
  (forall b t o w, answers (flashbots_send_bundle E b t o w)) /\
  (forall h b w, answers (flashbots_get_bundle_stats E h b w)) /\
  (forall h b w, answers (flashbots_get_bundle_stats_v2 E h b w)) /\
  (forall r w, answers (send_result_wait E r w)).

(** An environment in which the inclusion check never finds a receipt. *)
Definition never_included (W Stats SendResult Response : Type)
           (E : Env W Stats SendResult Response) : Prop :=
  forall r w, fst (send_result_receipts E r w) = Throw TransactionNotFound.

(** Two states with the same world and the same calls made so far; what
    was printed may differ. *)
Definition alike (W : Type) (s1 s2 : state W) : Prop :=
  world s1 = world s2 /\ calls (log s1) = calls (log s2).

(** ** A small world to run the script in

    The chain is at some height and makes one block every twelve seconds
    of sleep; the random source hands out numbered ids; the relay accepts
    every bundle; whether a receipt is found is decided by [found] from
    the height at the time of the check. *)

Module Demo.

Record World := {
  height : Z;
  draws : Z
}.

Definition alice : LocalAccount :=
  {| address := "0xA11CE"; privateKey := [x01] |}.

Definition reputation : LocalAccount :=
  {| address := "0x5167"; privateKey := [x02] |}.

Definition bob : LocalAccount :=
  {| address := "0xB0B"; privateKey := [x03] |}.

Definition quote : string := String "034" EmptyString.

Fixpoint dumps (j : json) : string :=
  match j with
  | JNull => "null"
  | JBool b => if b then "true" else "false"
  | JInt z => str_int z
  | JString s => quote ++ s ++ quote
  | JArray items =>
      "[" ++ (fix go (l : list json) : string :=
                match l with
                | [] => ""
                | [x] => dumps x
                | x :: r => dumps x ++ ", " ++ go r
                end) items ++ "]"
  | JObject fields =>
      "{" ++ (fix go (l : list (string * json)) : string :=
                match l with
                | [] => ""
                | [(k, x)] => quote ++ k ++ quote ++ ": " ++ dumps x
                | (k, x) :: r =>
                    quote ++ k ++ quote ++ ": " ++ dumps x ++ ", " ++ go r
                end) fields ++ "}"
  end%string.

Definition env (found : Z -> reply (list Receipt))
  : Env World string Z json :=
  {| sender := alice;
     signer := reputation;
     sign_transaction :=
       fun a tx => list_byte_of_string (address a ++ str_int (nonce tx));
     keccak := list_byte_of_string;
     sign_message := fun m key => list_byte_of_string (body m);
     json_dumps := dumps;
     str_ether := str_int;
     repr_bundle := fun b => str_int (Z.of_nat (List.length b));
     repr_stats := fun st => st;
     new_account := fun w => (bob, w);
     uuid4 := fun w => (("uuid-" ++ str_int (draws w))%string,
                        {| height := height w; draws := draws w + 1 |});
     time_sleep := fun secs w =>
                     {| height := height w + secs / 12; draws := draws w |};
     eth_get_balance := fun a w => (Return 1000, w);
     eth_get_transaction_count := fun a w => (Return (7 + height w), w);
     eth_block_number := fun w => (Return (height w), w);
     flashbots_send_bundle := fun b t o w => (Return t, w);
     flashbots_get_bundle_stats := fun h b w => (Return "seen"%string, w);
     flashbots_get_bundle_stats_v2 := fun h b w => (Return "seen"%string, w);
     bundle_hash := fun t => [xbb];
     send_result_wait :=
       fun t w => (Return tt,
                   {| height := Z.max (height w) t; draws := draws w |});
     send_result_receipts := fun t w => (found (height w), w);
     requests_post := fun u d h w => (Return (JObject []), w);
     response_json := fun r => Return r |}.

Definition genesis : World := {| height := 100; draws := 0 |}.

(** A relay that never lands the bundle. *)
Definition never : Z -> reply (list Receipt) :=
  fun _ => Throw TransactionNotFound.

(** The bundle lands once the chain has reached [h]. *)
Definition from_height (h : Z) : Z -> reply (list Receipt) :=
  fun now =>
    if h <=? now
    then Return [{| blockNumber := h; transactionHash := [xaa] |}]
    else Throw TransactionNotFound.

(** The node drops the connection during the check. *)
Definition outage : Z -> reply (list Receipt) :=
  fun _ => Throw ConnectionError.

End Demo.


(** * The rest of the script: further definitions *)

(** ** The random account of lines 42-44

    [secrets.token_hex(nbytes)] is the hexadecimal text, without prefix, of
    [nbytes] bytes from the system's random source, here [token_bytes];
    [from_key] is [Account.from_key]. *)

Section Randomness.

Variable W : Type.
Variable token_bytes : nat -> W -> bytes * W.
Variable from_key : string -> LocalAccount.

Definition token_hex (nbytes : nat) (w : W) : string * W :=
  let (bs, w') := token_bytes nbytes w in (Hex.digits bs, w').

(** Line 43: [key = "0x" + secrets.token_hex(32)] *)
Definition random_key (w : W) : string * W :=
  let (h, w') := token_hex 32 w in (("0x" ++ h)%string, w').

(** Lines 42-44, as a source of accounts for [new_account]. *)
Definition random_account_draw (w : W) : LocalAccount * W :=
  let (key, w') := random_key w in (from_key key, w').

End Randomness.

(** ** More ways to read a log *)

Definition sleeps (l : list event) : list Z :=
  flat_map (fun e => match e with Sleep n => [n] | _ => [] end) l.

(** The accounts whose balance was asked for, with the answers. *)
Definition balance_reads (l : list event) : list (string * reply Z) :=
  flat_map (fun e => match e with
                     | GetBalance a r => [(a, r)]
                     | _ => []
                     end) l.

(** The exceptions with which reads of the chain node failed. *)
Definition failed_reads (l : list event) : list exception :=
  flat_map (fun e => match e with
                     | GetBalance _ (Throw x)
                     | GetTransactionCount _ (Throw x)
                     | BlockNumber (Throw x) => [x]
                     | _ => []
                     end) l.

(** The stats queries of either version: bundle hash and block. *)
Definition stats_queries (l : list event) : list (string * Z) :=
  flat_map (fun e => match e with
                     | GetBundleStats h b | GetBundleStatsV2 h b => [(h, b)]
                     | _ => []
                     end) l.

(** ** More kinds of environment *)

(** The chain node answers every read. *)
Definition chain_answers (W Stats SendResult Response : Type)
           (E : Env W Stats SendResult Response) : Prop :=
  (forall a w, answers (eth_get_balance E a w)) /\
  (forall a w, answers (eth_get_transaction_count E a w)) /\
  (forall w, answers (eth_block_number E w)).

(** The relay fails every submission with [e]. *)
Definition relay_down (W Stats SendResult Response : Type)
           (e : exception) (E : Env W Stats SendResult Response) : Prop :=
  forall b t o w, fst (flashbots_send_bundle E b t o w) = Throw e.

(** Every inclusion check finds at least one receipt. *)
Definition always_found (W Stats SendResult Response : Type)
           (E : Env W Stats SendResult Response) : Prop :=
  forall r w, exists r0 rs,
      fst (send_result_receipts E r w) = Return (r0 :: rs).

(** The same environment with another chain head and another relay. *)
Definition with_rpc (W Stats SendResult Response : Type)
           (E : Env W Stats SendResult Response)
           (head : W -> reply Z * W)
           (relay : Bundle -> Z -> list (string * string) -> W
                    -> reply SendResult * W)
  : Env W Stats SendResult Response :=
  {| sender := sender E;
     signer := signer E;
     sign_transaction := sign_transaction E;
     keccak := keccak E;
     sign_message := sign_message E;
     json_dumps := json_dumps E;
     str_ether := str_ether E;
     repr_bundle := repr_bundle E;
     repr_stats := repr_stats E;
     new_account := new_account E;
     uuid4 := uuid4 E;
     time_sleep := time_sleep E;
     eth_get_balance := eth_get_balance E;
     eth_get_transaction_count := eth_get_transaction_count E;
     eth_block_number := head;
     flashbots_send_bundle := relay;
     flashbots_get_bundle_stats := flashbots_get_bundle_stats E;
     flashbots_get_bundle_stats_v2 := flashbots_get_bundle_stats_v2 E;
     bundle_hash := bundle_hash E;
     send_result_wait := send_result_wait E;
     send_result_receipts := send_result_receipts E;
     requests_post := requests_post E;
     response_json := response_json E |}.

(** ** What a piece of the script reports

    What one iteration adds to the log, against how it ends. *)
Definition attempt_report (o : outcome loop_ctl) (d : list event) : Prop :=
  balance_reads d = [] /\
  (forall e, In e (failed_reads d) -> o = Raise e) /\
  (In (Return []) (checks d) -> o = Raise IndexError) /\
  (o = Ok Break ->
   exists r0 rs,
     In (Return (r0 :: rs)) (checks d) /\
     In (Print (nl ++ "Bundle was mined in block "
                ++ str_int (blockNumber r0) ++ bel)) d) /\
  Forall (eq 12) (sleeps d) /\
  (List.length (sleeps d) <= List.length (sends d))%nat /\
  (List.length (sends d) <= List.length (sleeps d) + 1)%nat /\
  ((exists c, o = Ok c) -> List.length (sleeps d) = List.length (sends d)) /\
  (forall h b, In (h, b) (stats_queries d) -> In b (blocks_read d)) /\
  o <> OutOfFuel.

(** The same for the loop as a whole. *)
Definition loop_report (o : outcome unit) (d : list event) : Prop :=
  balance_reads d = [] /\
  (forall e, In e (failed_reads d) -> o = Raise e) /\
  (In (Return []) (checks d) -> o = Raise IndexError) /\
  (o = Ok tt ->
   exists r0 rs,
     In (Return (r0 :: rs)) (checks d) /\
     In (Print (nl ++ "Bundle was mined in block "
                ++ str_int (blockNumber r0) ++ bel)) d) /\
  Forall (eq 12) (sleeps d) /\
  (List.length (sleeps d) <= List.length (sends d))%nat /\
  (List.length (sends d) <= List.length (sleeps d) + 1)%nat /\
  (forall h b, In (h, b) (stats_queries d) -> In b (blocks_read d)).

(** What the lines outside the loop add: reads of the chain and printing
    only. *)
Definition reads_only (d : list event) : Prop :=
  sends d = [] /\ sleeps d = [] /\ checks d = [] /\
  stats_queries d = [] /\ blocks_read d = [].

(** ** What is printed against what is used *)

(** The printed lines that start with [p]. *)
Definition lines_with (p : string) (l : list event) : list string :=
  filter (starts_with p) (printed l).

(** The transaction counts read with success. *)
Definition nonces_read (l : list event) : list Z :=
  flat_map (fun e => match e with
                     | GetTransactionCount _ (Return n) => [n]
                     | _ => []
                     end) l.

(** The lines about the head, the id and the nonce are those of the heads
    read, the ids drawn and the nonces read, in order. *)
Definition lines_agree (d : list event) : Prop :=
  lines_with "Simulating on block " d
  = map (fun b => ("Simulating on block " ++ str_int b)%string)
        (blocks_read d) /\
  lines_with "replacementUuid " d
  = map (fun u => ("replacementUuid " ++ u)%string) (drawn_uuids d) /\
  lines_with "Nonce: " d
  = map (fun n => ("Nonce: " ++ str_int n)%string) (nonces_read d).

(** ** The small world, with other relays and random bytes *)

Module Demo2.

(** The node cannot tell the chain head. *)
Definition headless : Env Demo.World string Z json :=
  with_rpc (Demo.env Demo.never)
           (fun w => (Throw ConnectionError, w))
           (flashbots_send_bundle (Demo.env Demo.never)).

(** The relay refuses every bundle. *)
Definition refusing : Env Demo.World string Z json :=
  with_rpc (Demo.env Demo.never)
           (eth_block_number (Demo.env Demo.never))
           (fun b t o w => (Throw (ValueError "invalid bundle"), w)).

(** Every check finds one receipt, in the block the chain is at. *)
Definition landed : Z -> reply (list Receipt) :=
  fun now => Return [{| blockNumber := now; transactionHash := [xaa] |}].

(** The checks come back with no receipt at all. *)
Definition hollow : Z -> reply (list Receipt) := fun _ => Return [].

(** A random source that counts: byte [i] of draw number [k] is [k + i]. *)
Definition counting (n : nat) (w : Demo.World) : bytes * Demo.World :=
  (map (fun i => match Byte.of_N (Z.to_N ((Demo.draws w + Z.of_nat i) mod 256)) with
                 | Some b => b
                 | None => x00
                 end) (seq 0 n),
   {| Demo.height := Demo.height w; Demo.draws := Demo.draws w + 1 |}).

Definition keyed (key : string) : LocalAccount :=
  {| address := ("0x" ++ substring 2 8 key)%string;
     privateKey := list_byte_of_string key |}.

End Demo2.

(** * Properties *)

(** ** Strings and hexadecimal text *)

Lemma append_cancel_l (p a b : string) :
  (p ++ a)%string = (p ++ b)%string -> a = b.
Proof.
  induction p as [|c p IH]; simpl; intros H.
  - exact H.
  - injection H as H. auto.
Qed.

Lemma byte_of_digits_of_byte (b : byte) :
  Hex.byte_of_digits (fst (Hex.digits_of_byte b)) (snd (Hex.digits_of_byte b))
  = Some b.
Proof. destruct b; reflexivity. Qed.

Lemma digits_of_byte_inj (a b : byte) :
  Hex.digits_of_byte a = Hex.digits_of_byte b -> a = b.
Proof.
  intros H.
  pose proof (byte_of_digits_of_byte a) as Ha.
  pose proof (byte_of_digits_of_byte b) as Hb.
  rewrite H in Ha. congruence.
Qed.

Lemma digits_inj (x y : bytes) : Hex.digits x = Hex.digits y -> x = y.
Proof.
  revert y. induction x as [|a x IH]; intros [|b y]; cbn [Hex.digits].
  - reflexivity.
  - destruct (Hex.digits_of_byte b); discriminate.
  - destruct (Hex.digits_of_byte a); discriminate.
  - destruct (Hex.digits_of_byte a) as [h l] eqn:Ea.
    destruct (Hex.digits_of_byte b) as [h' l'] eqn:Eb.
    intros H. injection H as -> -> H.
    f_equal.
    + apply digits_of_byte_inj. congruence.
    + auto.
Qed.

Lemma hex_inj (x y : bytes) : Hex.hex x = Hex.hex y -> x = y.
Proof.
  unfold Hex.hex. intros H. apply digits_inj.
  exact (append_cancel_l "0x" _ _ H).
Qed.

(** ** Logs *)

Lemma sends_app (a b : list event) : sends (a ++ b) = sends a ++ sends b.
Proof. apply flat_map_app. Qed.

Lemma sent_bundles_app (a b : list event) :
  sent_bundles (a ++ b) = sent_bundles a ++ sent_bundles b.
Proof. unfold sent_bundles. now rewrite sends_app, map_app. Qed.

Lemma sent_targets_app (a b : list event) :
  sent_targets (a ++ b) = sent_targets a ++ sent_targets b.
Proof. unfold sent_targets. now rewrite sends_app, map_app. Qed.

Lemma sent_uuids_app (a b : list event) :
  sent_uuids (a ++ b) = sent_uuids a ++ sent_uuids b.
Proof. unfold sent_uuids. now rewrite sends_app, flat_map_app. Qed.

Lemma drawn_uuids_app (a b : list event) :
  drawn_uuids (a ++ b) = drawn_uuids a ++ drawn_uuids b.
Proof. apply flat_map_app. Qed.

Lemma blocks_read_app (a b : list event) :
  blocks_read (a ++ b) = blocks_read a ++ blocks_read b.
Proof. apply flat_map_app. Qed.

Lemma nonce_reads_app (a b : list event) :
  nonce_reads (a ++ b) = nonce_reads a ++ nonce_reads b.
Proof. apply flat_map_app. Qed.

Lemma printed_app (a b : list event) :
  printed (a ++ b) = printed a ++ printed b.
Proof. apply flat_map_app. Qed.

Lemma announced_app (a b : list event) :
  announced (a ++ b) = announced a ++ announced b.
Proof. unfold announced. now rewrite printed_app, filter_app. Qed.

Lemma posts_app (a b : list event) : posts (a ++ b) = posts a ++ posts b.
Proof. apply flat_map_app. Qed.

Lemma checks_app (a b : list event) : checks (a ++ b) = checks a ++ checks b.
Proof. apply flat_map_app. Qed.

Lemma endpoints_app (a b : list event) :
  endpoints (a ++ b) = endpoints a ++ endpoints b.
Proof. apply flat_map_app. Qed.

Lemma calls_app (a b : list event) : calls (a ++ b) = calls a ++ calls b.
Proof. apply filter_app. Qed.

Create Rewrite HintDb logs.
#[local] Hint Rewrite sends_app sent_bundles_app sent_targets_app
  sent_uuids_app drawn_uuids_app blocks_read_app nonce_reads_app printed_app
  announced_app posts_app endpoints_app calls_app checks_app
  length_app map_app : logs.

Lemma sent_uuids_quiet (d : list event) : sends d = [] -> sent_uuids d = [].
Proof. unfold sent_uuids. now intros ->. Qed.

Lemma sent_bundles_quiet (d : list event) : sends d = [] -> sent_bundles d = [].
Proof. unfold sent_bundles. now intros ->. Qed.

Lemma sent_targets_quiet (d : list event) : sends d = [] -> sent_targets d = [].
Proof. unfold sent_targets. now intros ->. Qed.

Lemma keeps_order_nil : keeps_order [].
Proof. intros st H. exact H. Qed.

Lemma keeps_order_app (a b : list event) :
  keeps_order a -> keeps_order b -> keeps_order (a ++ b).
Proof.
  intros Ha Hb st H. rewrite fold_left_app. apply Hb, Ha, H.
Qed.

Lemma closed_attempt_facts (bundle : Bundle) : closed (attempt_facts bundle).
Proof.
  split.
  - repeat split; try constructor. apply keeps_order_nil.
  - intros a b (A1 & A2 & A3 & A4 & A5 & A6 & A7 & A8 & A9 & A10)
               (B1 & B2 & B3 & B4 & B5 & B6 & B7 & B8 & B9 & B10).
    unfold attempt_facts. autorewrite with logs.
    rewrite A1, A2, A3, A4, A5, A7, A8, A9, B1, B2, B3, B4, B5, B7, B8, B9.
    repeat split.
    + apply Forall_app. now split.
    + now apply keeps_order_app.
Qed.

(** ** The monad *)

Section Monad.

Variable W : Type.
Variable I : list event -> Prop.
Hypothesis I_closed : closed I.

Lemma emits_while (body : M W loop_ctl) (fuel : nat) :
  emits I body -> emits I (while_true fuel body).
Proof.
  intros Hb. induction fuel as [|n IH]; intros s; simpl.
  - exists []. rewrite app_nil_r. split; [reflexivity | apply I_closed].
  - destruct (Hb s) as (d1 & E1 & I1).
    destruct (body s) as [[[|]|e|] s1]; simpl in *; try now exists d1.
    destruct (IH s1) as (d2 & E2 & I2).
    exists (d1 ++ d2). rewrite E2, E1, app_assoc. split; [reflexivity|].
    now apply I_closed.
Qed.

End Monad.

(** The loop stops with a value only when its body has asked for it. *)
Lemma while_true_unfold (W : Type) (body : M W loop_ctl) (n : nat)
      (s : state W) :
  while_true (S n) body s
  = match body s with
    | (Ok Break, s') => (Ok tt, s')
    | (Ok Continue, s') => while_true n body s'
    | (Raise e, s') => (Raise e, s')
    | (OutOfFuel, s') => (OutOfFuel, s')
    end.
Proof. reflexivity. Qed.

(** ** The script, piece by piece *)

Arguments str_int : simpl never.
Arguments Hex.hex : simpl never.

(** Take the next call of the piece under study apart. *)
Ltac next_call :=
  match goal with
  | |- context [eth_block_number ?env ?x] =>
      destruct (eth_block_number env x) as [[?b|?e] ?w]
  | |- context [uuid4 ?env ?x] =>
      destruct (uuid4 env x) as [?u ?w]
  | |- context [new_account ?env ?x] =>
      destruct (new_account env x) as [?acct ?w]
  | |- context [flashbots_send_bundle ?env ?x1 ?x2 ?x3 ?x] =>
      destruct (flashbots_send_bundle env x1 x2 x3 x) as [[?r|?e] ?w]
  | |- context [flashbots_get_bundle_stats ?env ?x1 ?x2 ?x] =>
      destruct (flashbots_get_bundle_stats env x1 x2 x) as [[?st|?e] ?w]
  | |- context [flashbots_get_bundle_stats_v2 ?env ?x1 ?x2 ?x] =>
      destruct (flashbots_get_bundle_stats_v2 env x1 x2 x) as [[?st|?e] ?w]
  | |- context [send_result_wait ?env ?x1 ?x] =>
      destruct (send_result_wait env x1 x) as [[[]|?e] ?w]
  | |- context [send_result_receipts ?env ?x1 ?x] =>
      destruct (send_result_receipts env x1 x) as [[[|?r0 ?rs]|[]] ?w]
  | |- context [eth_get_balance ?env ?x1 ?x] =>
      destruct (eth_get_balance env x1 x) as [[?bal|?e] ?w]
  | |- context [eth_get_transaction_count ?env ?x1 ?x] =>
      destruct (eth_get_transaction_count env x1 x) as [[?n|?e] ?w]
  end; simpl.

Ltac unfold_script :=
  unfold attempt, check_receipts, prologue, build, show_balances,
    try_except, bind, random_account, flashbot, get_balance,
    get_transaction_count, block_number, send_bundle, get_bundle_stats,
    get_bundle_stats_v2, sleep, wait, receipts, print, emit, interact, draw,
    index, ret; simpl.

(** Name the segment a finished run has appended. *)
Ltac name_segment :=
  repeat rewrite <- app_assoc; simpl;
  eexists; split; [reflexivity|].

Section Pieces.

Variables (W Stats SendResult Response : Type).
Variable E : Env W Stats SendResult Response.
Variable USE_SEPOLIA : bool.

(** Settle a list of facts about a segment that is written out. *)
Ltac settle_facts :=
  repeat split; try reflexivity; try (repeat constructor);
  try (intros [ok slept] H; simpl in *; subst; reflexivity).

Lemma attempt_emits (bundle : Bundle) :
  emits (attempt_facts bundle) (attempt E bundle).
Proof.
  intros s. unfold_script.
  repeat (next_call;
          try (name_segment; unfold attempt_facts; solve [settle_facts])).
Qed.

Lemma loop_emits (bundle : Bundle) (fuel : nat) :
  emits (attempt_facts bundle) (while_true fuel (attempt E bundle)).
Proof.
  apply emits_while.
  - apply closed_attempt_facts.
  - apply attempt_emits.
Qed.

Lemma show_balances_emits (receiverAddress : string) :
  emits inert (show_balances E receiverAddress).
Proof.
  intros s. unfold_script.
  repeat (next_call;
          try (name_segment; unfold inert, quiet; solve [settle_facts])).
Qed.

(** The lines before the loop: what they add, and what they hand on. *)
Lemma prologue_run (s : state W) :
  exists d,
    log (snd (prologue E USE_SEPOLIA s)) = log s ++ d /\
    quiet d /\
    endpoints d = [relay_override USE_SEPOLIA] /\
    ((exists acct n,
         fst (prologue E USE_SEPOLIA s)
         = Ok (address acct, make_bundle E USE_SEPOLIA (address acct) n) /\
         nonce_reads d = [Return n] /\
         In (RandomAccount acct) d)
     \/ ((forall x, fst (prologue E USE_SEPOLIA s) <> Ok x) /\
         (List.length (nonce_reads d) <= 1)%nat)).
Proof.
  unfold_script. next_call.
  destruct USE_SEPOLIA; simpl;
    repeat (next_call;
            try (name_segment;
                 split; [unfold quiet; solve [settle_facts]|];
                 split; [reflexivity|];
                 solve [ right; split; [intros x; discriminate | simpl; lia]
                       | left; eexists; eexists;
                         split; [reflexivity|]; split; [reflexivity|];
                         simpl; auto ])).
Qed.

(** [main] is its prologue, then the loop on the bundle, then the
    balances. *)
Lemma main_split (fuel : nat) (s : state W) :
  main E USE_SEPOLIA fuel s
  = bind (prologue E USE_SEPOLIA)
         (fun rb => bind (while_true fuel (attempt E (snd rb)))
                         (fun _ => show_balances E (fst rb))) s.
Proof.
  unfold main, prologue, build, show_balances at 1 3, bind, random_account,
    flashbot, get_balance, get_transaction_count, print, emit, interact,
    draw, ret; simpl.
  next_call. destruct USE_SEPOLIA; simpl; repeat next_call; reflexivity.
Qed.

(** The log of a run of [main], cut in three: before the loop, the loop,
    after the loop. *)
Lemma main_anatomy (fuel : nat) (w : W) :
  exists d0 d1 d2 bundle,
    log (snd (main E USE_SEPOLIA fuel (start w))) = d0 ++ d1 ++ d2 /\
    quiet d0 /\
    endpoints d0 = [relay_override USE_SEPOLIA] /\
    (List.length (nonce_reads d0) <= 1)%nat /\
    attempt_facts bundle d1 /\
    (sends d1 = [] \/
     exists acct n,
       bundle = make_bundle E USE_SEPOLIA (address acct) n /\
       nonce_reads d0 = [Return n] /\ In (RandomAccount acct) d0) /\
    inert d2.
Proof.
  assert (Hinert : inert []).
  { unfold inert, quiet. settle_facts. }
  rewrite main_split. unfold bind.
  destruct (prologue_run (start w)) as (d0 & E0 & Q0 & Ep & Hcase).
  simpl in E0.
  destruct (prologue E USE_SEPOLIA (start w)) as [[[r b]|e|] s1];
    simpl in *.
  - destruct Hcase as [(acct & n & Hok & Hn & Hin) | (Hno & _)];
      [| exfalso; exact (Hno _ eq_refl)].
    injection Hok as -> ->.
    destruct (loop_emits (make_bundle E USE_SEPOLIA (address acct) n) fuel s1)
      as (d1 & E1 & F1).
    assert (Hlen : (List.length (nonce_reads d0) <= 1)%nat)
      by (rewrite Hn; simpl; lia).
    assert (Hb : sends d1 = [] \/
                 exists acct' n',
                   make_bundle E USE_SEPOLIA (address acct) n
                   = make_bundle E USE_SEPOLIA (address acct') n' /\
                   nonce_reads d0 = [Return n'] /\
                   In (RandomAccount acct') d0)
      by (right; exists acct, n; auto).
    destruct (while_true fuel _ s1) as [[[]|e|] s2]; simpl in *.
    + destruct (show_balances_emits (address acct) s2) as (d2 & E2 & I2).
      exists d0, d1, d2, (make_bundle E USE_SEPOLIA (address acct) n).
      rewrite E2, E1, E0, <- app_assoc. auto 10.
    + exists d0, d1, [], (make_bundle E USE_SEPOLIA (address acct) n).
      rewrite E1, E0, app_nil_r. auto 10.
    + exists d0, d1, [], (make_bundle E USE_SEPOLIA (address acct) n).
      rewrite E1, E0, app_nil_r. auto 10.
  - assert (Hlen : (List.length (nonce_reads d0) <= 1)%nat).
    { destruct Hcase as [(acct & n & Hok & _) | (_ & H)];
        [discriminate | exact H]. }
    exists d0, [], [], []. rewrite E0, app_nil_r.
    repeat split; try exact Hlen; try apply Q0; try exact Ep;
      try apply (closed_attempt_facts []); try apply Hinert; auto.
  - assert (Hlen : (List.length (nonce_reads d0) <= 1)%nat).
    { destruct Hcase as [(acct & n & Hok & _) | (_ & H)];
        [discriminate | exact H]. }
    exists d0, [], [], []. rewrite E0, app_nil_r.
    repeat split; try exact Hlen; try apply Q0; try exact Ep;
      try apply (closed_attempt_facts []); try apply Hinert; auto.
Qed.

End Pieces.

(** ** How a run ends *)

(** Use that a call answers, where the environment is known to answer. *)
Ltac answer c :=
  let Ha := fresh "Ha" in
  assert (Ha : answers c) by auto;
  destruct Ha as [? Ha]; destruct c as [? ?]; simpl in Ha; subst; simpl.

Ltac next_answer :=
  match goal with
  | |- context [eth_block_number ?env ?x] => answer (eth_block_number env x)
  | |- context [uuid4 ?env ?x] => destruct (uuid4 env x) as [?u ?w]; simpl
  | |- context [new_account ?env ?x] =>
      destruct (new_account env x) as [?acct ?w]; simpl
  | |- context [flashbots_send_bundle ?env ?x1 ?x2 ?x3 ?x] =>
      answer (flashbots_send_bundle env x1 x2 x3 x)
  | |- context [flashbots_get_bundle_stats ?env ?x1 ?x2 ?x] =>
      answer (flashbots_get_bundle_stats env x1 x2 x)
  | |- context [flashbots_get_bundle_stats_v2 ?env ?x1 ?x2 ?x] =>
      answer (flashbots_get_bundle_stats_v2 env x1 x2 x)
  | |- context [send_result_wait ?env ?x1 ?x] =>
      answer (send_result_wait env x1 x)
  | |- context [eth_get_balance ?env ?x1 ?x] =>
      answer (eth_get_balance env x1 x)
  | |- context [eth_get_transaction_count ?env ?x1 ?x] =>
      answer (eth_get_transaction_count env x1 x)
  end.

Section Outcomes.

Variables (W Stats SendResult Response : Type).
Variable E : Env W Stats SendResult Response.
Variable USE_SEPOLIA : bool.

(** One iteration: what the answer to its inclusion check does to it. *)
Lemma attempt_outcome (bundle : Bundle) (s : state W) :
  exists d,
    log (snd (attempt E bundle s)) = log s ++ d /\
    (forall e, In (Throw e) (checks d) ->
               (e = TransactionNotFound /\
                fst (attempt E bundle s) = Ok Continue) \/
               (e <> TransactionNotFound /\
                fst (attempt E bundle s) = Raise e)) /\
    (fst (attempt E bundle s) = Ok Break ->
     exists r0 rs, In (Return (r0 :: rs)) (checks d)) /\
    fst (attempt E bundle s) <> OutOfFuel.
Proof.
  unfold_script.
  repeat (next_call;
          try (name_segment;
               split;
               [ simpl; intros x Hx; try contradiction;
                 destruct Hx as [Hx|[]]; try discriminate;
                 injection Hx as <-;
                 solve [ left; split; reflexivity
                       | right; split; [discriminate | reflexivity] ]
               | split;
                 [ solve [ intros H; discriminate H
                         | intros _; eexists; eexists; simpl; left;
                           reflexivity ]
                 | discriminate ] ])).
Qed.

Lemma loop_outcome (bundle : Bundle) (fuel : nat) (s : state W) :
  exists d,
    log (snd (while_true fuel (attempt E bundle) s)) = log s ++ d /\
    (forall e, In (Throw e) (checks d) ->
               e = TransactionNotFound \/
               fst (while_true fuel (attempt E bundle) s) = Raise e) /\
    (fst (while_true fuel (attempt E bundle) s) = Ok tt ->
     exists r0 rs, In (Return (r0 :: rs)) (checks d)).
Proof.
  revert s. induction fuel as [|n IH]; intros s.
  - exists []. simpl. rewrite app_nil_r.
    split; [reflexivity|]. split; [intros e [] | intros H; discriminate H].
  - rewrite while_true_unfold.
    destruct (attempt_outcome bundle s) as (d1 & E1 & Hthrow & Hbreak & Hfuel).
    destruct (attempt E bundle s) as [[[|]|e0|] s1]; simpl in *.
    + exists d1. split; [assumption|]. split; [|auto].
      intros e He. destruct (Hthrow e He) as [[-> _]|[_ H]];
        [now left | discriminate].
    + destruct (IH s1) as (d2 & E2 & Hthrow2 & Hok2).
      exists (d1 ++ d2). rewrite E2, E1, app_assoc.
      split; [reflexivity|]. rewrite checks_app. split.
      * intros e He. apply in_app_or in He. destruct He as [He|He].
        -- destruct (Hthrow e He) as [[-> _]|[_ H]];
             [now left | discriminate].
        -- auto.
      * intros H. destruct (Hok2 H) as (r0 & rs & Hin).
        exists r0, rs. apply in_or_app. now right.
    + exists d1. split; [assumption|].
      split; [|intros H; discriminate H].
      intros e He. destruct (Hthrow e He) as [[-> _]|[_ H]];
        [now left | right; injection H as ->; reflexivity].
    + now contradiction Hfuel.
Qed.

(** A whole run: an inclusion check that fails with anything but "not
    found" ends [main] with that exception; [main] returns only after a
    check that found a receipt. *)
Lemma main_outcome (fuel : nat) (w : W) :
  (forall e,
      In (Throw e) (checks (log (snd (main E USE_SEPOLIA fuel (start w))))) ->
      e = TransactionNotFound \/
      fst (main E USE_SEPOLIA fuel (start w)) = Raise e) /\
  (fst (main E USE_SEPOLIA fuel (start w)) = Ok tt ->
   exists r0 rs,
     In (Return (r0 :: rs))
        (checks (log (snd (main E USE_SEPOLIA fuel (start w)))))).
Proof.
  rewrite main_split. unfold bind.
  destruct (prologue_run E USE_SEPOLIA (start w)) as (d0 & E0 & Q0 & _).
  destruct Q0 as (_ & _ & _ & _ & _ & C0 & _). simpl in E0.
  destruct (prologue E USE_SEPOLIA (start w)) as [[[r b]|e0|] s1];
    simpl in *.
  - destruct (loop_outcome b fuel s1) as (d1 & E1 & Hthrow & Hok).
    destruct (while_true fuel (attempt E b) s1) as [[[]|e1|] s2];
      simpl in *.
    + destruct (show_balances_emits E r s2) as (d2 & E2 & I2).
      destruct I2 as ((_ & _ & _ & _ & _ & C2 & _) & _).
      assert (Hl : checks (log (snd (show_balances E r s2))) = checks d1).
      { rewrite E2, E1, E0. autorewrite with logs.
        now rewrite C0, C2, app_nil_r. }
      rewrite Hl. split.
      * intros e He. destruct (Hthrow e He) as [->|H];
          [now left | discriminate].
      * intros _. now apply Hok.
    + rewrite E1, E0, checks_app, C0. simpl.
      split; [auto | intros H; discriminate H].
    + rewrite E1, E0, checks_app, C0. simpl.
      split; [|intros H; discriminate H].
      intros e He. destruct (Hthrow e He) as [->|H];
        [now left | discriminate].
  - rewrite E0, C0. split; [intros e [] | intros H; discriminate H].
  - rewrite E0, C0. split; [intros e [] | intros H; discriminate H].
Qed.

(** *** When the bundle never lands *)

Hypothesis E_responsive : responsive E.
Hypothesis E_never : never_included E.

Lemma attempt_never_included (bundle : Bundle) (s : state W) :
  fst (attempt E bundle s) = Ok Continue /\
  List.length (sends (log (snd (attempt E bundle s))))
  = S (List.length (sends (log s))).
Proof.
  destruct E_responsive as (Hbal & Hcnt & Hblk & Hsend & Hs1 & Hs2 & Hwait).
  unfold_script. repeat next_answer.
  match goal with
  | |- context [send_result_receipts ?env ?r ?x] =>
      pose proof (E_never r x) as Hx;
      destruct (send_result_receipts env r x) as [? ?]
  end.
  simpl in Hx. subst. simpl. split; [reflexivity|].
  autorewrite with logs. simpl. lia.
Qed.

Lemma loop_never_included (bundle : Bundle) (fuel : nat) (s : state W) :
  fst (while_true fuel (attempt E bundle) s) = OutOfFuel /\
  List.length (sends (log (snd (while_true fuel (attempt E bundle) s))))
  = (fuel + List.length (sends (log s)))%nat.
Proof.
  revert s. induction fuel as [|n IH]; intros s.
  - simpl. auto.
  - rewrite while_true_unfold.
    destruct (attempt_never_included bundle s) as [Hc Hl].
    destruct (attempt E bundle s) as [o s1]. simpl in Hc, Hl. subst o.
    destruct (IH s1) as [Ho Hn]. split; [exact Ho|]. rewrite Hn, Hl. lia.
Qed.

Lemma prologue_answers (s : state W) :
  exists rb, fst (prologue E USE_SEPOLIA s) = Ok rb.
Proof.
  destruct E_responsive as (Hbal & Hcnt & Hblk & Hsend & Hs1 & Hs2 & Hwait).
  unfold_script. next_answer.
  destruct USE_SEPOLIA; simpl; repeat next_answer; eexists; reflexivity.
Qed.

Lemma main_never_included (fuel : nat) (w : W) :
  fst (main E USE_SEPOLIA fuel (start w)) = OutOfFuel /\
  List.length (sends (log (snd (main E USE_SEPOLIA fuel (start w))))) = fuel.
Proof.
  rewrite main_split. unfold bind.
  destruct (prologue_run E USE_SEPOLIA (start w)) as (d0 & E0 & Q0 & _).
  destruct Q0 as (S0 & _). simpl in E0.
  destruct (prologue_answers (start w)) as [[r b] Hok].
  destruct (prologue E USE_SEPOLIA (start w)) as [o s1]. simpl in *.
  subst o. simpl.
  destruct (loop_never_included b fuel s1) as [Ho Hn].
  destruct (while_true fuel (attempt E b) s1) as [o s2]. simpl in *.
  subst o. simpl. split; [reflexivity|].
  rewrite Hn, E0, S0. simpl. lia.
Qed.

End Outcomes.

(** ** The stats queries do not steer the loop *)

Section Observability.

Variables (W Stats SendResult Response : Type).
Variable E : Env W Stats SendResult Response.
Variable USE_SEPOLIA : bool.
Variables v1 v2 : string -> Z -> W -> reply Stats * W.

Hypothesis v1_same :
  forall h b w, same_but_value (flashbots_get_bundle_stats E h b w) (v1 h b w).
Hypothesis v2_same :
  forall h b w,
    same_but_value (flashbots_get_bundle_stats_v2 E h b w) (v2 h b w).

(** Take the next call of two runs side by side. *)
Ltac next_call_both :=
  match goal with
  | |- context [flashbots_get_bundle_stats E ?h ?b ?x] =>
      let Hw := fresh "Hw" in
      let Hv := fresh "Hv" in
      destruct (v1_same h b x) as [Hw Hv];
      destruct (flashbots_get_bundle_stats E h b x) as [[?st|?e] ?w],
               (v1 h b x) as [[?st|?e] ?w];
      simpl in Hw, Hv; subst; try contradiction; simpl
  | |- context [flashbots_get_bundle_stats_v2 E ?h ?b ?x] =>
      let Hw := fresh "Hw" in
      let Hv := fresh "Hv" in
      destruct (v2_same h b x) as [Hw Hv];
      destruct (flashbots_get_bundle_stats_v2 E h b x) as [[?st|?e] ?w],
               (v2 h b x) as [[?st|?e] ?w];
      simpl in Hw, Hv; subst; try contradiction; simpl
  | _ => next_call
  end.

Ltac settle_alike Hc :=
  split; [reflexivity|]; split; [reflexivity|];
  simpl; autorewrite with logs; rewrite Hc; reflexivity.

Lemma alike_refl (s : state W) : alike s s.
Proof. split; reflexivity. Qed.

Lemma attempt_alike (bundle : Bundle) (s1 s2 : state W) :
  alike s1 s2 ->
  fst (attempt E bundle s1) = fst (attempt (with_stats E v1 v2) bundle s2) /\
  alike (snd (attempt E bundle s1))
        (snd (attempt (with_stats E v1 v2) bundle s2)).
Proof.
  intros [Hw Hc]. unfold_script. rewrite <- Hw.
  repeat (next_call_both; try solve [settle_alike Hc]).
Qed.

Lemma loop_alike (bundle : Bundle) (fuel : nat) (s1 s2 : state W) :
  alike s1 s2 ->
  fst (while_true fuel (attempt E bundle) s1)
  = fst (while_true fuel (attempt (with_stats E v1 v2) bundle) s2) /\
  alike (snd (while_true fuel (attempt E bundle) s1))
        (snd (while_true fuel (attempt (with_stats E v1 v2) bundle) s2)).
Proof.
  revert s1 s2. induction fuel as [|n IH]; intros s1 s2 H.
  - simpl. auto.
  - rewrite !while_true_unfold.
    destruct (attempt_alike bundle H) as [Ho Ha].
    destruct (attempt E bundle s1) as [o1 t1].
    destruct (attempt (with_stats E v1 v2) bundle s2) as [o2 t2].
    simpl in Ho, Ha. subst o2.
    destruct o1 as [[|]|e|]; simpl; auto.
Qed.

Lemma show_balances_alike (receiverAddress : string) (s1 s2 : state W) :
  alike s1 s2 ->
  fst (show_balances E receiverAddress s1)
  = fst (show_balances (with_stats E v1 v2) receiverAddress s2) /\
  alike (snd (show_balances E receiverAddress s1))
        (snd (show_balances (with_stats E v1 v2) receiverAddress s2)).
Proof.
  intros [Hw Hc]. unfold_script. rewrite <- Hw.
  repeat (next_call_both; try solve [settle_alike Hc]).
Qed.

Lemma main_alike (fuel : nat) (w : W) :
  fst (main E USE_SEPOLIA fuel (start w))
  = fst (main (with_stats E v1 v2) USE_SEPOLIA fuel (start w)) /\
  alike (snd (main E USE_SEPOLIA fuel (start w)))
        (snd (main (with_stats E v1 v2) USE_SEPOLIA fuel (start w))).
Proof.
  rewrite !main_split. unfold bind.
  change (prologue (with_stats E v1 v2) USE_SEPOLIA (start w))
    with (prologue E USE_SEPOLIA (start w)).
  destruct (prologue E USE_SEPOLIA (start w)) as [[[r b]|e|] s1]; simpl;
    try (split; [reflexivity | apply alike_refl]).
  destruct (loop_alike b fuel (alike_refl s1)) as [Ho Ha].
  destruct (while_true fuel (attempt E b) s1) as [o1 t1].
  destruct (while_true fuel (attempt (with_stats E v1 v2) b) s1) as [o2 t2].
  simpl in Ho, Ha. subst o2.
  destruct o1 as [[]|e|]; simpl; auto.
  now apply show_balances_alike.
Qed.

End Observability.

(** ** The whole run *)

Section Claims.

Variables (W Stats SendResult Response : Type).
Variable E : Env W Stats SendResult Response.
Variable USE_SEPOLIA : bool.

(** Everything the three segments of a run say about its whole log. *)
Lemma main_facts (fuel : nat) (w : W) :
  let l := log (snd (main E USE_SEPOLIA fuel (start w))) in
  sent_uuids l = drawn_uuids l /\
  List.length (drawn_uuids l) = List.length (sends l) /\
  List.length (blocks_read l) = List.length (sends l) /\
  sent_targets l = map (fun b => b + 10) (blocks_read l) /\
  announced l
  = map (fun b => ("Sending bundle targeting block " ++ str_int (b + 1))%string)
        (blocks_read l) /\
  posts l = [] /\
  endpoints l = [relay_override USE_SEPOLIA] /\
  (List.length (nonce_reads l) <= 1)%nat /\
  (exists bundle,
      Forall (eq bundle) (sent_bundles l) /\
      (sends l = [] \/
       exists acct n,
         bundle = make_bundle E USE_SEPOLIA (address acct) n /\
         nonce_reads l = [Return n] /\ In (RandomAccount acct) l)) /\
  stats_after_sleep 12 l = true.
Proof.
  destruct (main_anatomy E USE_SEPOLIA fuel w)
    as (d0 & d1 & d2 & bundle & El & Q0 & Ep & Hn0 & F1 & Hb & I2).
  cbv zeta. rewrite El. clear El.
  destruct Q0 as (S0 & U0 & B0 & A0 & P0 & C0 & K0).
  destruct I2 as ((S2 & U2 & B2 & A2 & P2 & C2 & K2) & N2 & Ep2).
  destruct F1 as (F1 & F2 & F3 & F4 & F5 & F6 & F7 & F8 & F9 & F10).
  autorewrite with logs.
  rewrite !(sent_uuids_quiet _ S0), !(sent_uuids_quiet _ S2),
    !(sent_targets_quiet _ S0), !(sent_targets_quiet _ S2),
    !(sent_bundles_quiet _ S0), !(sent_bundles_quiet _ S2).
  rewrite S0, S2, U0, U2, B0, B2, A0, A2, P0, P2, N2, Ep2, F7, F8, F9, Ep.
  simpl. rewrite !app_nil_r.
  repeat split; auto.
  - lia.
  - exists bundle. split; [exact F6|].
    destruct Hb as [Hs | (acct & n & Hb & Hn & Hin)]; [now left | right].
    exists acct, n. repeat split; auto. apply in_or_app. now left.
  - unfold stats_after_sleep. rewrite !fold_left_app.
    apply K2, F10, K0. reflexivity.
Qed.

(** C1 (as amended).  On every attempt the loop draws a new replacementUuid
    with [uuid4] and hands exactly that value to [send_bundle]: over a whole
    run the ids sent are, in order, the ids drawn, one draw for each
    [send_bundle] call.  The id is thus chosen inside the loop and chosen
    again on every retry. *)
Theorem C1_uuid_drawn_anew_for_each_attempt (fuel : nat) (w : W) :
  let l := log (snd (main E USE_SEPOLIA fuel (start w))) in
  sent_uuids l = drawn_uuids l /\
  List.length (drawn_uuids l) = List.length (sends l).
Proof.
  pose proof (main_facts fuel w) as H. cbv zeta in *.
  split; apply H.
Qed.

(** C2 (as amended).  On every iteration of the loop the chain head is read
    (one successful read for each [send_bundle] call), but the bundle is
    assembled once, before the loop: the sender's nonce is read at most
    once in a run and every [send_bundle] call of the run is given the very
    same bundle. *)
Theorem C2_head_read_per_attempt_bundle_built_once (fuel : nat) (w : W) :
  let l := log (snd (main E USE_SEPOLIA fuel (start w))) in
  List.length (blocks_read l) = List.length (sends l) /\
  (List.length (nonce_reads l) <= 1)%nat /\
  (forall b1 b2,
      In b1 (sent_bundles l) -> In b2 (sent_bundles l) -> b1 = b2).
Proof.
  pose proof (main_facts fuel w) as H. cbv zeta in *.
  destruct H as (_ & _ & Hb & _ & _ & _ & _ & Hn & (bundle & Hall & _) & _).
  repeat split; auto.
  intros b1 b2 H1 H2. rewrite Forall_forall in Hall.
  rewrite <- (Hall b1 H1). apply Hall, H2.
Qed.

(** The target of every attempt is the head read plus ten; the line that
    announces the attempt names the head plus one. *)
Lemma targets_and_announcements (fuel : nat) (w : W) :
  let l := log (snd (main E USE_SEPOLIA fuel (start w))) in
  sent_targets l = map (fun b => b + 10) (blocks_read l) /\
  announced l
  = map (fun b => ("Sending bundle targeting block " ++ str_int (b + 1))%string)
        (blocks_read l).
Proof.
  pose proof (main_facts fuel w) as H. cbv zeta in *.
  split; apply H.
Qed.

(** C5 (as amended).  [main] never simulates: no [eth_callBundle] request
    is posted in any run, and every attempt that has read the chain head
    goes on to call [send_bundle]. *)
Theorem C5_send_is_never_preceded_by_simulation (fuel : nat) (w : W) :
  let l := log (snd (main E USE_SEPOLIA fuel (start w))) in
  posts l = [] /\
  List.length (sends l) = List.length (blocks_read l).
Proof.
  pose proof (main_facts fuel w) as H. cbv zeta in *.
  destruct H as (_ & _ & Hb & _ & _ & Hp & _).
  split; [exact Hp | symmetry; exact Hb].
Qed.




(** C9.  The bundle built from the sender's nonce [n] has two entries:
    the first is the signed form of a transaction with nonce [n], the
    second a transaction with nonce [n + 1] left to the sender to sign, so
    the two nonces differ.  Every bundle [main] sends is this bundle for
    the nonce it read. *)
Theorem C9_bundle_nonces_are_n_and_n_plus_1
        (receiverAddress : string) (n : Z) (fuel : nat) (w : W) :
  make_bundle E USE_SEPOLIA receiverAddress n
  = [signed_transaction
       (sign_transaction E (sender E) (tx1 USE_SEPOLIA receiverAddress n));
     signer_transaction (sender E) (tx2 USE_SEPOLIA receiverAddress n)] /\
  nonce (tx1 USE_SEPOLIA receiverAddress n) = n /\
  nonce (tx2 USE_SEPOLIA receiverAddress n) = n + 1 /\
  nonce (tx1 USE_SEPOLIA receiverAddress n)
  <> nonce (tx2 USE_SEPOLIA receiverAddress n) /\
  (let l := log (snd (main E USE_SEPOLIA fuel (start w))) in
   forall b,
     In b (sent_bundles l) ->
     exists acct n',
       nonce_reads l = [Return n'] /\
       b = make_bundle E USE_SEPOLIA (address acct) n').
Proof.
  repeat split.
  - simpl. lia.
  - cbv zeta. intros b Hb.
    pose proof (main_facts fuel w) as H. cbv zeta in H.
    destruct H as (_ & _ & _ & _ & _ & _ & _ & _ & (bundle & Hall & Hc) & _).
    rewrite Forall_forall in Hall.
    destruct Hc as [Hs | (acct & n' & Hbn & Hn & _)].
    + unfold sent_bundles in Hb. rewrite Hs in Hb. destruct Hb.
    + exists acct, n'. split; [exact Hn|].
      rewrite <- (Hall b Hb). exact Hbn.
Qed.

End Claims.

Section Network.

Variables (W Stats SendResult Response : Type).
Variable E : Env W Stats SendResult Response.

(** C10.  [CHAIN_ID] is 5 under the flag and 1 without it, and the flag is
    set as the script ships; both transactions carry [CHAIN_ID]; [main]
    points the middleware at the Goerli relay under the flag and gives no
    relay otherwise; [simulate_bundle] posts to the Sepolia relay. *)
Theorem C10_network_selection
        (receiverAddress : string) (n : Z) (fuel : nat) (w : W)
        (bundle : list string) (target_blk_num : Z) (s : state W) :
  USE_SEPOLIA_default = true /\
  CHAIN_ID true = 5 /\ CHAIN_ID false = 1 /\
  chainId (tx1 true receiverAddress n) = 5 /\
  chainId (tx2 true receiverAddress n) = 5 /\
  chainId (tx1 false receiverAddress n) = 1 /\
  chainId (tx2 false receiverAddress n) = 1 /\
  endpoints (log (snd (main E true fuel (start w))))
  = [Some "https://relay-goerli.flashbots.net"%string] /\
  endpoints (log (snd (main E false fuel (start w)))) = [None] /\
  map (fun p => fst (fst p))
      (posts (log (snd (simulate_bundle E bundle target_blk_num s))))
  = map (fun p => fst (fst p)) (posts (log s))
    ++ ["https://relay-sepolia.flashbots.net"%string].
Proof.
  repeat split.
  - apply (@main_facts _ _ _ _ E true fuel w).
  - apply (@main_facts _ _ _ _ E false fuel w).
  - unfold simulate_bundle, bind, post, interact, lift.
    destruct (requests_post _ _ _ _ _) as [[resp|e] w1]; simpl;
      [destruct (response_json E resp); simpl|];
      now rewrite posts_app, map_app.
Qed.

End Network.

(** ** The authentication header *)

Section Authenticator.

Variables (W Stats SendResult Response : Type).
Variable E : Env W Stats SendResult Response.


End Authenticator.

(** ** Runs in the small world *)

Lemma list_byte_of_string_inj (s t : string) :
  list_byte_of_string s = list_byte_of_string t -> s = t.
Proof.
  intros H.
  rewrite <- (string_of_list_byte_of_string s),
          <- (string_of_list_byte_of_string t).
  now rewrite H.
Qed.

Lemma demo_sign_distinguishes (found : Z -> reply (list Receipt))
      (key m m' : string) :
  sign_message (Demo.env found) (encode_defunct m) key
  = sign_message (Demo.env found) (encode_defunct m') key ->
  m = m'.
Proof. simpl. apply list_byte_of_string_inj. Qed.

Lemma demo_responsive (found : Z -> reply (list Receipt)) :
  responsive (Demo.env found).
Proof. repeat split; intros; eexists; reflexivity. Qed.

Lemma demo_never_included : never_included (Demo.env Demo.never).
Proof. intros r w. reflexivity. Qed.

(** The bundle lands in block 115: the first attempt (head 100, sent for
    110) misses, the second (head 110, sent for 120) finds the receipt, and
    [main] returns after printing the block. *)
Example run_until_included :
  let r := main (Demo.env (Demo.from_height 115)) true 5 (start Demo.genesis) in
  fst r = Ok tt /\
  sent_targets (log (snd r)) = [110; 120] /\
  In (Print (nl ++ "Bundle was mined in block 115" ++ bel)) (log (snd r)).
Proof. vm_compute. repeat split; auto 80. Qed.

(** The check fails with a connection error: [main] ends with it. *)
Example run_with_outage :
  fst (main (Demo.env Demo.outage) true 5 (start Demo.genesis))
  = Raise ConnectionError.
Proof. reflexivity. Qed.

(** The scan tells a stats query that was not slept for. *)
Example stats_without_sleep :
  stats_after_sleep 12 [Sleep 12; Print "x"; GetBundleStats "0xbb" 100] = true /\
  stats_after_sleep 12 [Sleep 12; Wait; GetBundleStats "0xbb" 100] = false /\
  stats_after_sleep 12 [Sleep 1; GetBundleStatsV2 "0xbb" 100] = false.
Proof. repeat split. Qed.

(** Two attempts of a run went out under two different ids. *)
Lemma C1_uuid_differs_between_attempts :
  let l := log (snd (main (Demo.env Demo.never) true 2 (start Demo.genesis))) in
  ~ (forall u v, In u (sent_uuids l) -> In v (sent_uuids l) -> u = v).
Proof.
  cbv zeta. intros H.
  assert (X : "uuid-0"%string = "uuid-1"%string)
    by (apply H; vm_compute; auto).
  discriminate X.
Qed.

(** Two attempts, one reading of the nonce: the second attempt did not
    assemble a bundle of its own. *)
Lemma C2_second_attempt_builds_no_bundle :
  let l := log (snd (main (Demo.env Demo.never) true 2 (start Demo.genesis))) in
  ~ (List.length (nonce_reads l) = List.length (sends l)).
Proof. cbv zeta. intros H. vm_compute in H. discriminate H. Qed.

(** C4.  With the chain head at block 100 the attempt is sent for block
    110, while the line that announces it, and the line that reports it
    missing, both name block 101. *)
Theorem C4_announced_block_is_not_the_target :
  let l := log (snd (main (Demo.env Demo.never) true 1 (start Demo.genesis))) in
  blocks_read l = [100] /\
  sent_targets l = [110] /\
  announced l = ["Sending bundle targeting block 101"%string] /\
  In (Print "Bundle not found in block 101") l.
Proof. vm_compute. repeat split; auto 50. Qed.

(** A bundle was sent and nothing was simulated. *)
Lemma C5_sent_without_simulation :
  let l := log (snd (main (Demo.env Demo.never) true 1 (start Demo.genesis))) in
  ~ (sends l <> [] -> posts l <> []).
Proof.
  cbv zeta. intros H. apply H.
  - vm_compute. discriminate.
  - vm_compute. reflexivity.
Qed.





(** * The rest of the script: further properties *)

(** ** More about logs *)

Lemma sleeps_app (a b : list event) : sleeps (a ++ b) = sleeps a ++ sleeps b.
Proof. apply flat_map_app. Qed.

Lemma balance_reads_app (a b : list event) :
  balance_reads (a ++ b) = balance_reads a ++ balance_reads b.
Proof. apply flat_map_app. Qed.

Lemma failed_reads_app (a b : list event) :
  failed_reads (a ++ b) = failed_reads a ++ failed_reads b.
Proof. apply flat_map_app. Qed.

Lemma stats_queries_app (a b : list event) :
  stats_queries (a ++ b) = stats_queries a ++ stats_queries b.
Proof. apply flat_map_app. Qed.

#[local] Hint Rewrite sleeps_app balance_reads_app failed_reads_app
  stats_queries_app : logs.

(** Membership in a list that is written out. *)
Ltac settle_in :=
  simpl; intros;
  repeat match goal with
         | H : _ \/ _ |- _ => destruct H as [H|H]
         | H : False |- _ => destruct H
         | H : Throw _ = Throw _ |- _ => injection H as H
         | H : (_, _) = (_, _) |- _ => injection H as ? ?
         | H : _ = _ |- _ => first [discriminate H | subst]
         end;
  simpl; auto 30.

Section Reports.

Variables (W Stats SendResult Response : Type).
Variable E : Env W Stats SendResult Response.
Variable USE_SEPOLIA : bool.

Lemma attempt_reports (bundle : Bundle) (s : state W) :
  exists d,
    log (snd (attempt E bundle s)) = log s ++ d /\
    attempt_report (fst (attempt E bundle s)) d.
Proof.
  unfold_script.
  repeat (next_call;
          try (name_segment; unfold attempt_report;
               split; [reflexivity|];
               split; [solve [settle_in]|];
               split; [solve [settle_in]|];
               split; [solve [ intros H; discriminate H
                             | intros _; eexists; eexists; split;
                               simpl; auto 30 ]|];
               split; [solve [repeat constructor]|];
               split; [simpl; lia|];
               split; [simpl; lia|];
               split; [solve [ intros [c H]; discriminate H
                             | intros _; reflexivity ]|];
               split; [solve [settle_in]|];
               discriminate)).
Qed.

Lemma loop_reports (bundle : Bundle) (fuel : nat) (s : state W) :
  exists d,
    log (snd (while_true fuel (attempt E bundle) s)) = log s ++ d /\
    loop_report (fst (while_true fuel (attempt E bundle) s)) d /\
    (fst (while_true fuel (attempt E bundle) s) = Ok tt \/
     fst (while_true fuel (attempt E bundle) s) = OutOfFuel ->
     List.length (sleeps d) = List.length (sends d)).
Proof.
  revert s. induction fuel as [|n IH]; intros s.
  - exists []. simpl. rewrite app_nil_r. unfold loop_report. simpl.
    split; [reflexivity|]. split; [|reflexivity].
    split; [reflexivity|]. split; [intros e []|]. split; [intros []|].
    split; [intros H; discriminate H|]. split; [constructor|].
    split; [lia|]. split; [lia|]. intros h b [].
  - rewrite while_true_unfold.
    destruct (attempt_reports bundle s)
      as (d1 & E1 & B1 & F1 & I1 & M1 & T1 & L1 & U1 & Q1 & S1 & N1).
    destruct (attempt E bundle s) as [[[|]|e0|] s1]; simpl in *.
    + exists d1. split; [assumption|]. split.
      * unfold loop_report. split; [assumption|].
        split; [intros e He; discriminate (F1 e He)|].
        split; [intros He; discriminate (I1 He)|].
        split; [intros _; now apply M1|].
        split; [assumption|]. split; [assumption|]. split; assumption.
      * intros _. apply Q1. eexists; reflexivity.
    + destruct (IH s1)
        as (d2 & E2 & (B2 & F2 & I2 & M2 & T2 & L2 & U2 & S2) & Q2).
      assert (Hq : List.length (sleeps d1) = List.length (sends d1))
        by (apply Q1; eexists; reflexivity).
      exists (d1 ++ d2). rewrite E2, E1, app_assoc.
      split; [reflexivity|]. split.
      * unfold loop_report. autorewrite with logs. rewrite B1, B2.
        split; [reflexivity|]. split.
        { intros e He. apply in_app_or in He. destruct He as [He|He];
            [discriminate (F1 e He) | auto]. }
        split.
        { intros He. apply in_app_or in He. destruct He as [He|He];
            [discriminate (I1 He) | auto]. }
        split.
        { intros Ho. destruct (M2 Ho) as (r0 & rs & Hc & Hp).
          exists r0, rs. split; apply in_or_app; now right. }
        split; [apply Forall_app; now split|].
        split; [lia|]. split; [lia|].
        intros h b Hin. apply in_app_or in Hin. apply in_or_app.
        destruct Hin as [Hin|Hin];
          [left; now apply (S1 h) | right; now apply (S2 h)].
      * intros Ho. autorewrite with logs. rewrite (Q2 Ho). lia.
    + exists d1. split; [assumption|]. split.
      * unfold loop_report. split; [assumption|]. split.
        { intros e He. pose proof (F1 e He) as H. injection H as ->.
          reflexivity. }
        split.
        { intros He. pose proof (I1 He) as H. injection H as ->.
          reflexivity. }
        split; [intros H; discriminate H|].
        split; [assumption|]. split; [assumption|]. split; assumption.
      * intros [H|H]; discriminate H.
    + now contradiction N1.
Qed.

Lemma prologue_reports (s : state W) :
  exists d acct,
    log (snd (prologue E USE_SEPOLIA s)) = log s ++ d /\
    reads_only d /\
    (forall e, In e (failed_reads d) ->
               fst (prologue E USE_SEPOLIA s) = Raise e) /\
    (exists rest,
        d = RandomAccount acct :: Flashbot (relay_override USE_SEPOLIA)
                          :: rest) /\
    (exists k, (k <= 2)%nat /\
               map fst (balance_reads d)
               = firstn k [address (sender E); address acct]) /\
    (forall rb, fst (prologue E USE_SEPOLIA s) = Ok rb ->
                fst rb = address acct /\
                map fst (balance_reads d)
                = [address (sender E); address acct]) /\
    fst (prologue E USE_SEPOLIA s) <> OutOfFuel.
Proof.
  unfold_script. next_call.
  destruct USE_SEPOLIA; simpl;
    repeat (next_call;
            try (repeat rewrite <- app_assoc; simpl;
                 eexists; exists acct;
                 split; [reflexivity|];
                 split; [unfold reads_only; repeat split; reflexivity|];
                 split; [solve [settle_in]|];
                 split; [eexists; reflexivity|];
                 split; [first [ exists 0%nat; split; [lia | reflexivity]
                               | exists 1%nat; split; [lia | reflexivity]
                               | exists 2%nat; split; [lia | reflexivity] ]|];
                 split; [solve [ intros rb H; discriminate H
                               | intros rb H; injection H as <-;
                                 split; reflexivity ]|];
                 discriminate)).
Qed.

Lemma show_balances_reports (receiverAddress : string) (s : state W) :
  exists d,
    log (snd (show_balances E receiverAddress s)) = log s ++ d /\
    reads_only d /\
    (forall e, In e (failed_reads d) ->
               fst (show_balances E receiverAddress s) = Raise e) /\
    (exists k, (k <= 2)%nat /\
               map fst (balance_reads d)
               = firstn k [address (sender E); receiverAddress]) /\
    (fst (show_balances E receiverAddress s) = Ok tt ->
     map fst (balance_reads d) = [address (sender E); receiverAddress]) /\
    fst (show_balances E receiverAddress s) <> OutOfFuel.
Proof.
  unfold_script.
  repeat (next_call;
          try (name_segment;
               split; [unfold reads_only; repeat split; reflexivity|];
               split; [solve [settle_in]|];
               split; [first [ exists 0%nat; split; [lia | reflexivity]
                             | exists 1%nat; split; [lia | reflexivity]
                             | exists 2%nat; split; [lia | reflexivity] ]|];
               split; [solve [ intros H; discriminate H
                             | intros _; reflexivity ]|];
               discriminate)).
Qed.

(** The loop followed by the final balances. *)
Lemma tail_reports (receiverAddress : string) (bundle : Bundle)
      (fuel : nat) (s : state W) :
  let t := bind (while_true fuel (attempt E bundle))
                (fun _ => show_balances E receiverAddress) s in
  exists d,
    log (snd t) = log s ++ d /\
    (forall e, In e (failed_reads d) -> fst t = Raise e) /\
    (In (Return []) (checks d) -> fst t = Raise IndexError) /\
    (fst t = Ok tt ->
     exists r0 rs,
       In (Return (r0 :: rs)) (checks d) /\
       In (Print (nl ++ "Bundle was mined in block "
                  ++ str_int (blockNumber r0) ++ bel)) d) /\
    Forall (eq 12) (sleeps d) /\
    (List.length (sleeps d) <= List.length (sends d))%nat /\
    (List.length (sends d) <= List.length (sleeps d) + 1)%nat /\
    (forall h b, In (h, b) (stats_queries d) -> In b (blocks_read d)) /\
    (exists k, (k <= 2)%nat /\
               map fst (balance_reads d)
               = firstn k [address (sender E); receiverAddress] /\
               (fst t = Ok tt -> k = 2%nat) /\
               (fst t = OutOfFuel -> k = 0%nat)).
Proof.
  cbv zeta. unfold bind.
  destruct (loop_reports bundle fuel s)
    as (d1 & E1 & (B1 & F1 & I1 & M1 & T1 & L1 & U1 & S1) & Q1).
  destruct (while_true fuel (attempt E bundle) s) as [[[]|e1|] s1];
    simpl in *.
  - destruct (show_balances_reports receiverAddress s1)
      as (d2 & E2 & (R1 & R2 & R3 & R4 & R5) & F2 & (k2 & Hk2 & Bk2)
          & Hok2 & N2).
    assert (Hf1 : failed_reads d1 = []).
    { destruct (failed_reads d1) as [|e f] eqn:Ef; [reflexivity|].
      discriminate (F1 e (or_introl eq_refl)). }
    assert (Hc1 : ~ In (Return []) (checks d1))
      by (intros H; discriminate (I1 H)).
    destruct (M1 eq_refl) as (r0 & rs & Hc & Hp).
    exists (d1 ++ d2). rewrite E2, E1, app_assoc.
    split; [reflexivity|]. autorewrite with logs.
    rewrite Hf1, R1, R2, R3, R4, R5, B1, !app_nil_r. simpl.
    split; [exact F2|].
    split; [intros H; now contradiction Hc1|].
    split.
    { intros _. exists r0, rs. split; [exact Hc | apply in_or_app; now left]. }
    split; [exact T1|]. split; [simpl in *; lia|]. split; [simpl in *; lia|].
    split; [exact S1|].
    destruct (show_balances E receiverAddress s1) as [[[]|e2|] s2];
      simpl in *.
    + exists 2%nat. split; [lia|]. split; [now apply Hok2|].
      split; [reflexivity | intros H; discriminate H].
    + exists k2. split; [exact Hk2|]. split; [exact Bk2|].
      split; intros H; discriminate H.
    + now contradiction N2.
  - exists d1. split; [assumption|].
    split; [exact F1|]. split; [exact I1|].
    split; [intros H; discriminate H|].
    split; [exact T1|]. split; [simpl in *; lia|]. split; [simpl in *; lia|].
    split; [exact S1|].
    exists 0%nat. rewrite B1. split; [lia|]. split; [reflexivity|].
    split; [intros H; discriminate H | reflexivity].
  - exists d1. split; [assumption|].
    split; [exact F1|]. split; [exact I1|].
    split; [intros H; discriminate H|].
    split; [exact T1|]. split; [simpl in *; lia|]. split; [simpl in *; lia|].
    split; [exact S1|].
    exists 0%nat. rewrite B1. split; [lia|]. split; [reflexivity|].
    split; [intros H; discriminate H | reflexivity].
Qed.

(** A whole run. *)
Lemma main_reports (fuel : nat) (w : W) :
  let r := main E USE_SEPOLIA fuel (start w) in
  let l := log (snd r) in
  (forall e, In e (failed_reads l) -> fst r = Raise e) /\
  (In (Return []) (checks l) -> fst r = Raise IndexError) /\
  (fst r = Ok tt ->
   exists r0 rs,
     In (Return (r0 :: rs)) (checks l) /\
     In (Print (nl ++ "Bundle was mined in block "
                ++ str_int (blockNumber r0) ++ bel)) l) /\
  Forall (eq 12) (sleeps l) /\
  (List.length (sleeps l) <= List.length (sends l))%nat /\
  (List.length (sends l) <= List.length (sleeps l) + 1)%nat /\
  (forall h b, In (h, b) (stats_queries l) -> In b (blocks_read l)) /\
  (exists acct rest k,
      l = RandomAccount acct :: Flashbot (relay_override USE_SEPOLIA) :: rest /\
      (k <= 4)%nat /\
      map fst (balance_reads l)
      = firstn k [address (sender E); address acct;
                  address (sender E); address acct] /\
      (fst r = Ok tt -> k = 4%nat) /\
      (fst r = OutOfFuel -> k = 2%nat)).
Proof.
  cbv zeta.
  assert (Hm : main E USE_SEPOLIA fuel (start w)
               = match prologue E USE_SEPOLIA (start w) with
                 | (Ok rb, s1) =>
                     bind (while_true fuel (attempt E (snd rb)))
                          (fun _ => show_balances E (fst rb)) s1
                 | (Raise e, s1) => (Raise e, s1)
                 | (OutOfFuel, s1) => (OutOfFuel, s1)
                 end)
    by (rewrite main_split; reflexivity).
  rewrite Hm. clear Hm.
  destruct (prologue_reports (start w))
    as (d0 & acct & E0 & (R1 & R2 & R3 & R4 & R5) & F0 & (rest0 & Hd0)
        & (k0 & Hk0 & Bk0) & Hok0 & N0).
  simpl in E0.
  destruct (prologue E USE_SEPOLIA (start w)) as [[[r b]|e|] s1];
    simpl in *.
  - destruct (Hok0 _ eq_refl) as [Hr Hb0]. simpl in Hr. subst r.
    assert (Hf0 : failed_reads d0 = []).
    { destruct (failed_reads d0) as [|e f] eqn:Ef; [reflexivity|].
      discriminate (F0 e (or_introl eq_refl)). }
    destruct (tail_reports (address acct) b fuel s1)
      as (d & E1 & F1 & I1 & M1 & T1 & L1 & U1 & S1
          & (k & Hk & Bk & Kok & Kfuel)).
    cbv zeta in *.
    destruct (bind (while_true fuel (attempt E b))
                   (fun _ => show_balances E (address acct)) s1)
      as [o s2].
    simpl in *. rewrite E1, E0. autorewrite with logs.
    rewrite Hf0, R1, R2, R3, R4, R5, Hb0. simpl.
    split; [exact F1|]. split; [exact I1|].
    split.
    { intros Ho. destruct (M1 Ho) as (r0 & rs & Hc & Hp).
      exists r0, rs. split; [exact Hc | apply in_or_app; now right]. }
    split; [exact T1|]. split; [simpl in *; lia|]. split; [simpl in *; lia|].
    split; [exact S1|].
    exists acct, (rest0 ++ d), (2 + k)%nat.
    split; [rewrite Hd0; reflexivity|].
    split; [lia|]. split; [rewrite Bk; reflexivity|].
    split; intros Ho; [rewrite (Kok Ho) | rewrite (Kfuel Ho)]; reflexivity.
  - rewrite E0, R1, R2, R3, R4, R5. simpl.
    split; [intros e0 He; injection (F0 e0 He) as ->; reflexivity|].
    split; [intros []|].
    split; [intros H; discriminate H|].
    split; [constructor|]. split; [lia|]. split; [lia|].
    split; [intros h b []|].
    exists acct, rest0, k0. split; [exact Hd0|]. split; [lia|].
    split.
    { rewrite Bk0. destruct k0 as [|[|[|k0]]]; try reflexivity. lia. }
    split; intros H; discriminate H.
  - now contradiction N0.
Qed.

End Reports.

(** ** Environments with a fixed behaviour *)

Section Behaviours.

Variables (W Stats SendResult Response : Type).
Variable E : Env W Stats SendResult Response.
Variable USE_SEPOLIA : bool.

Lemma responsive_chain_answers : responsive E -> chain_answers E.
Proof. intros (Hbal & Hcnt & Hblk & _). now repeat split. Qed.

Hypothesis E_chain : chain_answers E.

Lemma prologue_answered (s : state W) :
  exists rb, fst (prologue E USE_SEPOLIA s) = Ok rb.
Proof.
  destruct E_chain as (Hbal & Hcnt & Hblk).
  unfold_script. next_answer.
  destruct USE_SEPOLIA; simpl; repeat next_answer; eexists; reflexivity.
Qed.

Lemma show_balances_answered (receiverAddress : string) (s : state W) :
  fst (show_balances E receiverAddress s) = Ok tt.
Proof.
  destruct E_chain as (Hbal & Hcnt & Hblk).
  unfold_script. repeat next_answer. reflexivity.
Qed.

(** The relay refuses: the iteration ends at [send_bundle]. *)
Lemma attempt_relay_down (e : exception) (bundle : Bundle) (s : state W) :
  relay_down e E ->
  fst (attempt E bundle s) = Raise e /\
  exists d,
    log (snd (attempt E bundle s)) = log s ++ d /\
    List.length (sends d) = 1%nat /\ sleeps d = [] /\ checks d = [] /\
    stats_queries d = [] /\ balance_reads d = [].
Proof.
  intros Hdown. destruct E_chain as (Hbal & Hcnt & Hblk).
  unfold_script. repeat next_answer.
  match goal with
  | |- context [flashbots_send_bundle ?env ?x1 ?x2 ?x3 ?x] =>
      pose proof (Hdown x1 x2 x3 x) as Hx;
      destruct (flashbots_send_bundle env x1 x2 x3 x) as [? ?]
  end.
  simpl in Hx. subst. simpl. split; [reflexivity|].
  name_segment. repeat split.
Qed.

(** The bundle has landed: the iteration ends the loop. *)
Lemma attempt_found (bundle : Bundle) (s : state W) :
  responsive E -> always_found E ->
  fst (attempt E bundle s) = Ok Break /\
  exists d,
    log (snd (attempt E bundle s)) = log s ++ d /\
    List.length (sends d) = 1%nat /\ sleeps d = [12] /\
    List.length (checks d) = 1%nat /\ balance_reads d = [].
Proof.
  intros (Hbal & Hcnt & Hblk & Hsend & Hs1 & Hs2 & Hwait) Hfound.
  unfold_script. repeat next_answer.
  match goal with
  | |- context [send_result_receipts ?env ?r ?x] =>
      destruct (Hfound r x) as (r0 & rs & Hx);
      destruct (send_result_receipts env r x) as [? ?]
  end.
  simpl in Hx. subst. simpl. split; [reflexivity|].
  name_segment. repeat split.
Qed.

End Behaviours.

(** ** Hexadecimal text of numbers and bytes *)

Lemma to_hex_uint_nonnil (n : N) : N.to_hex_uint n <> Hexadecimal.Nil.
Proof.
  destruct n; simpl; [discriminate|].
  apply HexadecimalPos.Unsigned.to_uint_nonnil.
Qed.

Lemma hex_text_of_N_inj (n m : N) :
  HexadecimalString.NilZero.string_of_uint (N.to_hex_uint n)
  = HexadecimalString.NilZero.string_of_uint (N.to_hex_uint m) ->
  n = m.
Proof.
  intros H. apply HexadecimalN.Unsigned.to_uint_inj.
  apply (f_equal HexadecimalString.NilZero.uint_of_string) in H.
  rewrite !HexadecimalString.NilZero.usu in H
    by apply to_hex_uint_nonnil.
  now injection H.
Qed.

Lemma toHex_inj (z z' : Z) : Hex.toHex z = Hex.toHex z' -> z = z'.
Proof.
  unfold Hex.toHex.
  destruct (Z.ltb_spec z 0), (Z.ltb_spec z' 0); intros Heq.
  - apply (append_cancel_l "-0x") in Heq. apply hex_text_of_N_inj in Heq.
    lia.
  - discriminate Heq.
  - discriminate Heq.
  - apply (append_cancel_l "0x") in Heq. apply hex_text_of_N_inj in Heq.
    lia.
Qed.

Lemma length_digits (bs : bytes) :
  String.length (Hex.digits bs) = (2 * List.length bs)%nat.
Proof.
  induction bs as [|b bs IH]; [reflexivity|].
  cbn [Hex.digits]. destruct (Hex.digits_of_byte b). simpl. rewrite IH. lia.
Qed.

Lemma map_JString_inj (a b : list string) :
  map JString a = map JString b -> a = b.
Proof.
  revert b. induction a as [|x a IH]; intros [|y b] H; try discriminate H.
  - reflexivity.
  - simpl in H. injection H as -> H. f_equal. auto.
Qed.

(** ** Further properties of the script *)

Section Extras.

Variables (W Stats SendResult Response : Type).
Variable E : Env W Stats SendResult Response.
Variable USE_SEPOLIA : bool.

Lemma main_after_prologue (fuel : nat) (s : state W) :
  main E USE_SEPOLIA fuel s
  = match prologue E USE_SEPOLIA s with
    | (Ok rb, s1) =>
        bind (while_true fuel (attempt E (snd rb)))
             (fun _ => show_balances E (fst rb)) s1
    | (Raise e, s1) => (Raise e, s1)
    | (OutOfFuel, s1) => (OutOfFuel, s1)
    end.
Proof. rewrite main_split. reflexivity. Qed.

(** X1.  A read of the chain node that fails (a balance, the sender's
    transaction count, the chain head) is not handled anywhere: [main] ends
    with the exception of that read. *)
Theorem failed_chain_read_ends_main (fuel : nat) (w : W) (e : exception)
        (Hread : In e (failed_reads
                         (log (snd (main E USE_SEPOLIA fuel (start w)))))) :
  fst (main E USE_SEPOLIA fuel (start w)) = Raise e.
Proof.
  pose proof (main_reports E USE_SEPOLIA fuel w) as H. cbv zeta in H.
  destruct H as (Hfail & _). exact (Hfail e Hread).
Qed.

(** X2.  An inclusion check that comes back with an empty list of
    receipts is not "not found": taking its first element raises
    [IndexError], which the handler does not take, and [main] ends with
    it. *)
Theorem empty_receipts_raise_index_error
        (block : Z) (r : SendResult) (s : state W) (w' : W)
        (fuel : nat) (w : W) :
  (send_result_receipts E r (world s) = (Return [], w') ->
   check_receipts E block r s
   = (Raise IndexError,
      {| world := w'; log := log s ++ [Receipts (Return [])] |})) /\
  (In (Return []) (checks (log (snd (main E USE_SEPOLIA fuel (start w))))) ->
   fst (main E USE_SEPOLIA fuel (start w)) = Raise IndexError).
Proof.
  split.
  - intros H. unfold_script. rewrite H. reflexivity.
  - apply (main_reports E USE_SEPOLIA fuel w).
Qed.

(** X3.  When [main] returns, a check has found receipts and the line
    that reports success names the block of the first receipt of that
    list. *)
Theorem success_names_block_of_first_receipt (fuel : nat) (w : W)
        (Hok : fst (main E USE_SEPOLIA fuel (start w)) = Ok tt) :
  exists r0 rs,
    In (Return (r0 :: rs))
       (checks (log (snd (main E USE_SEPOLIA fuel (start w))))) /\
    In (Print (nl ++ "Bundle was mined in block "
               ++ str_int (blockNumber r0) ++ bel))
       (log (snd (main E USE_SEPOLIA fuel (start w)))).
Proof.
  pose proof (main_reports E USE_SEPOLIA fuel w) as H. cbv zeta in H.
  destruct H as (_ & _ & Hmined & _). exact (Hmined Hok).
Qed.



(** X6.  Both stats queries are made for the chain head read at the start
    of the attempt, not for the block the bundle was sent for: every block
    named in a stats query of a run is a head that was read. *)
Theorem stats_are_asked_about_heads_read (fuel : nat) (w : W) :
  let l := log (snd (main E USE_SEPOLIA fuel (start w))) in
  Forall (fun q => In (snd q) (blocks_read l)) (stats_queries l).
Proof.
  pose proof (main_reports E USE_SEPOLIA fuel w) as H. cbv zeta in *.
  destruct H as (_ & _ & _ & _ & _ & _ & S & _).
  apply Forall_forall. intros [h b] Hin. now apply (S h).
Qed.

(** X7.  A relay that refuses the bundle is not retried: when the node
    answers and [send_bundle] raises, [main] makes one [send_bundle] call
    and ends with the relay's exception, without sleeping, asking for
    stats, checking for receipts or showing the final balances. *)
Theorem relay_refusal_is_not_retried
        (e : exception) (Hchain : chain_answers E) (Hdown : relay_down e E)
        (n : nat) (w : W) :
  let r := main E USE_SEPOLIA (S n) (start w) in
  fst r = Raise e /\
  List.length (sends (log (snd r))) = 1%nat /\
  sleeps (log (snd r)) = [] /\
  stats_queries (log (snd r)) = [] /\
  checks (log (snd r)) = [] /\
  List.length (balance_reads (log (snd r))) = 2%nat.
Proof.
  cbv zeta. rewrite main_after_prologue.
  destruct (prologue_reports E USE_SEPOLIA (start w))
    as (d0 & acct & E0 & (R1 & R2 & R3 & R4 & R5) & _ & _ & _ & Hok0 & _).
  destruct (@prologue_answered _ _ _ _ E USE_SEPOLIA Hchain (start w))
    as [[r b] Hrb].
  destruct (prologue E USE_SEPOLIA (start w)) as [o s1].
  simpl in Hrb, E0, Hok0. subst o. destruct (Hok0 _ eq_refl) as [_ Hb0].
  cbn beta iota. cbn [fst snd]. unfold bind. rewrite while_true_unfold.
  destruct (@attempt_relay_down _ _ _ _ E Hchain e b s1 Hdown)
    as (Ho & d1 & E1 & S1 & Z1 & C1 & Q1 & B1).
  destruct (attempt E b s1) as [o1 s2]. simpl in *. subst o1. simpl.
  rewrite E1, E0. autorewrite with logs.
  rewrite R1, R2, R3, R4, S1, Z1, C1, Q1, B1, app_nil_r.
  repeat split.
  rewrite <- (length_map fst), Hb0. reflexivity.
Qed.

(** X8.  When the node and the relay answer and the first inclusion check
    finds a receipt, [main] returns after a single attempt: one
    [send_bundle] call, one sleep of twelve seconds, one check, and the
    balances shown before and after. *)
Theorem landed_bundle_ends_after_one_attempt
        (Hresp : responsive E) (Hfound : always_found E)
        (n : nat) (w : W) :
  let r := main E USE_SEPOLIA (S n) (start w) in
  fst r = Ok tt /\
  List.length (sends (log (snd r))) = 1%nat /\
  sleeps (log (snd r)) = [12] /\
  List.length (checks (log (snd r))) = 1%nat /\
  List.length (balance_reads (log (snd r))) = 4%nat.
Proof.
  pose proof (responsive_chain_answers Hresp) as Hchain.
  cbv zeta. rewrite main_after_prologue.
  destruct (prologue_reports E USE_SEPOLIA (start w))
    as (d0 & acct & E0 & (R1 & R2 & R3 & R4 & R5) & _ & _ & _ & Hok0 & _).
  destruct (@prologue_answered _ _ _ _ E USE_SEPOLIA Hchain (start w))
    as [[r b] Hrb].
  destruct (prologue E USE_SEPOLIA (start w)) as [o s1].
  simpl in Hrb, E0, Hok0. subst o. destruct (Hok0 _ eq_refl) as [_ Hb0].
  cbn beta iota. cbn [fst snd]. unfold bind. rewrite while_true_unfold.
  destruct (@attempt_found _ _ _ _ E b s1 Hresp Hfound)
    as (Ho & d1 & E1 & S1 & Z1 & C1 & B1).
  destruct (attempt E b s1) as [o1 s2]. simpl in *. subst o1. simpl.
  destruct (show_balances_reports E r s2)
    as (d2 & E2 & (T1 & T2 & T3 & T4 & T5) & _ & _ & Hok2 & _).
  pose proof (@show_balances_answered _ _ _ _ E Hchain r s2) as Ho2.
  specialize (Hok2 Ho2).
  destruct (show_balances E r s2) as [o2 s3]. simpl in *. subst o2.
  rewrite E2, E1, E0. autorewrite with logs.
  rewrite R1, R2, R3, T1, T2, T3, S1, Z1, C1, B1.
  repeat split.
  rewrite <- !(length_map fst), Hb0, Hok2. reflexivity.
Qed.

(** X9.  [simulate_bundle] makes one request, a POST to the Sepolia relay
    of the serialized [eth_callBundle] call, and nothing else; it sends no
    bundle.  A failure of the request and a failure to decode the answer
    are raised unchanged; any JSON the relay answers is returned as it is,
    a JSON-RPC error object included. *)
Theorem simulate_bundle_passes_answer_through
        (bundle : list string) (target_blk_num : Z) (s : state W) :
  let data :=
    json_dumps E (callBundle_request bundle (Hex.toHex target_blk_num)) in
  let headers :=
    [("Content-Type"%string, "application/json"%string);
     ("X-Flashbots-Signature"%string, flashbots_signature E (signer E) data)] in
  let reply :=
    requests_post E "https://relay-sepolia.flashbots.net" data headers
                  (world s) in
  let r := simulate_bundle E bundle target_blk_num s in
  calls (log (snd r))
  = calls (log s) ++ [Post "https://relay-sepolia.flashbots.net" data headers] /\
  sends (log (snd r)) = sends (log s) /\
  world (snd r) = snd reply /\
  (forall j, fst r = Ok j <->
             exists resp, fst reply = Return resp /\
                          response_json E resp = Return j) /\
  (forall e, fst r = Raise e <->
             fst reply = Throw e \/
             exists resp, fst reply = Return resp /\
                          response_json E resp = Throw e) /\
  fst r <> OutOfFuel.
Proof.
  cbv zeta. unfold simulate_bundle, bind, post, interact, lift.
  destruct (requests_post _ _ _ _ _) as [[resp|e0] w1]; simpl.
  - destruct (response_json E resp) as [j0|e1] eqn:Ej; simpl;
      rewrite calls_app, sends_app, app_nil_r; simpl;
      (split; [reflexivity|]); (split; [reflexivity|]);
      (split; [reflexivity|]).
    + split; [|split; [|discriminate]].
      * intros j. split.
        -- intros H. injection H as <-. now exists resp.
        -- intros (resp' & H1 & H2). injection H1 as <-.
           rewrite Ej in H2. now injection H2 as <-.
      * intros e. split.
        -- intros H. discriminate H.
        -- intros [H | (resp' & H1 & H2)]; [discriminate H|].
           injection H1 as <-. rewrite Ej in H2. discriminate H2.
    + split; [|split; [|discriminate]].
      * intros j. split.
        -- intros H. discriminate H.
        -- intros (resp' & H1 & H2). injection H1 as <-.
           rewrite Ej in H2. discriminate H2.
      * intros e. split.
        -- intros H. injection H as <-. right. now exists resp.
        -- intros [H | (resp' & H1 & H2)]; [discriminate H|].
           injection H1 as <-. rewrite Ej in H2. now injection H2 as <-.
  - rewrite calls_app, sends_app, app_nil_r. simpl.
    split; [reflexivity|]. split; [reflexivity|]. split; [reflexivity|].
    split; [|split; [|discriminate]].
    + intros j. split.
      * intros H. discriminate H.
      * intros (resp' & H1 & _). discriminate H1.
    + intros e. split.
      * intros H. injection H as <-. now left.
      * intros [H | (resp' & H1 & _)];
          [now injection H as <- | discriminate H1].
Qed.

(** X10.  The [eth_callBundle] call built by [simulate_bundle] loses
    nothing: two calls are equal only for the same list of transactions
    and the same target block. *)
Theorem callBundle_request_determines_its_input
        (bundle bundle' : list string) (t t' : Z) :
  callBundle_request bundle (Hex.toHex t)
  = callBundle_request bundle' (Hex.toHex t') <->
  bundle = bundle' /\ t = t'.
Proof.
  split.
  - unfold callBundle_request. intros H. injection H as Hb Ht.
    split; [now apply map_JString_inj | now apply toHex_inj].
  - now intros [-> ->].
Qed.

End Extras.

(** X11.  The key [random_account] hands to [Account.from_key] is the
    hexadecimal text of the 32 random bytes behind [0x]: 66 characters,
    from which the bytes can be told apart, so different draws give
    different keys. *)
Theorem random_key_is_hex_of_32_bytes
        (W : Type) (token_bytes : nat -> W -> bytes * W)
        (from_key : string -> LocalAccount) (w : W)
        (Hlen : List.length (fst (token_bytes 32%nat w)) = 32%nat) :
  fst (random_key token_bytes w) = Hex.hex (fst (token_bytes 32%nat w)) /\
  String.length (fst (random_key token_bytes w)) = 66%nat /\
  random_account_draw token_bytes from_key w
  = (from_key (fst (random_key token_bytes w)), snd (token_bytes 32%nat w)) /\
  (forall w2,
      fst (token_bytes 32%nat w) <> fst (token_bytes 32%nat w2) ->
      fst (random_key token_bytes w) <> fst (random_key token_bytes w2)).
Proof.
  unfold random_account_draw, random_key, token_hex.
  destruct (token_bytes 32%nat w) as [bs w1] eqn:Eb. simpl in *.
  split; [reflexivity|]. split; [|split; [reflexivity|]].
  - rewrite length_digits, Hlen. reflexivity.
  - intros w2 Hne. destruct (token_bytes 32%nat w2) as [bs2 w3]. simpl in *.
    intros H. apply Hne. injection H as H. now apply digits_inj.
Qed.

(** ** What is printed against what is used *)

Lemma lines_with_app (p : string) (a b : list event) :
  lines_with p (a ++ b) = lines_with p a ++ lines_with p b.
Proof. unfold lines_with. now rewrite printed_app, filter_app. Qed.

Lemma nonces_read_app (a b : list event) :
  nonces_read (a ++ b) = nonces_read a ++ nonces_read b.
Proof. apply flat_map_app. Qed.

Lemma closed_lines_agree : closed lines_agree.
Proof.
  split.
  - repeat split.
  - intros a b (A1 & A2 & A3) (B1 & B2 & B3). unfold lines_agree.
    rewrite !lines_with_app, blocks_read_app, drawn_uuids_app,
      nonces_read_app, !map_app, A1, A2, A3, B1, B2, B3.
    repeat split.
Qed.

Section Lines.

Variables (W Stats SendResult Response : Type).
Variable E : Env W Stats SendResult Response.
Variable USE_SEPOLIA : bool.

Lemma attempt_lines (bundle : Bundle) :
  emits lines_agree (attempt E bundle).
Proof.
  intros s. unfold_script.
  repeat (next_call;
          try (name_segment; unfold lines_agree;
               solve [repeat split; reflexivity])).
Qed.

Lemma prologue_lines : emits lines_agree (prologue E USE_SEPOLIA).
Proof.
  intros s. unfold_script. next_call.
  destruct USE_SEPOLIA; simpl;
    repeat (next_call;
            try (name_segment; unfold lines_agree;
                 solve [repeat split; reflexivity])).
Qed.

Lemma show_balances_lines (receiverAddress : string) :
  emits lines_agree (show_balances E receiverAddress).
Proof.
  intros s. unfold_script.
  repeat (next_call;
          try (name_segment; unfold lines_agree;
               solve [repeat split; reflexivity])).
Qed.

Lemma emits_then (A B : Type) (I : list event -> Prop)
      (m : M W A) (k : A -> M W B) :
  closed I -> emits I m -> (forall a, emits I (k a)) -> emits I (bind m k).
Proof.
  intros Hc Hm Hk s. unfold bind.
  destruct (Hm s) as (d1 & E1 & I1).
  destruct (m s) as [[a|e|] s1]; simpl in *.
  - destruct (Hk a s1) as (d2 & E2 & I2).
    exists (d1 ++ d2). rewrite E2, E1, app_assoc. split; [reflexivity|].
    now apply Hc.
  - now exists d1.
  - now exists d1.
Qed.

(** X12.  The lines a run prints about the chain head, the replacement id
    and the nonce show the values the run uses: one "Simulating on block"
    line for each head read, naming that head (although nothing is
    simulated), one "replacementUuid" line for each id drawn, and the
    "Nonce" line for the transaction count read. *)
Theorem printed_head_id_and_nonce_are_those_used (fuel : nat) (w : W) :
  let l := log (snd (main E USE_SEPOLIA fuel (start w))) in
  lines_with "Simulating on block " l
  = map (fun b => ("Simulating on block " ++ str_int b)%string)
        (blocks_read l) /\
  lines_with "replacementUuid " l
  = map (fun u => ("replacementUuid " ++ u)%string) (drawn_uuids l) /\
  lines_with "Nonce: " l
  = map (fun n => ("Nonce: " ++ str_int n)%string) (nonces_read l).
Proof.
  cbv zeta. rewrite main_split.
  assert (H : emits lines_agree
                (bind (prologue E USE_SEPOLIA)
                      (fun rb => bind (while_true fuel (attempt E (snd rb)))
                                      (fun _ => show_balances E (fst rb))))).
  { apply emits_then; [apply closed_lines_agree | apply prologue_lines |].
    intros rb.
    apply emits_then; [apply closed_lines_agree | | intros _;
                                                    apply show_balances_lines].
    apply emits_while; [apply closed_lines_agree | apply attempt_lines]. }
  destruct (H (start w)) as (d & Ed & Hd). simpl in Ed.
  rewrite Ed. exact Hd.
Qed.

End Lines.

(** ** Further runs in the small world *)

Lemma demo2_refusing_chain_answers : chain_answers Demo2.refusing.
Proof. repeat split; intros; eexists; reflexivity. Qed.

Lemma demo2_refusing_relay_down :
  relay_down (ValueError "invalid bundle") Demo2.refusing.
Proof. intros b t o w. reflexivity. Qed.

Lemma demo2_landed_always_found : always_found (Demo.env Demo2.landed).
Proof. intros r w. eexists. eexists. reflexivity. Qed.

(** The random source of the small world gives the key its 64 digits. *)
Example random_key_of_first_draw :
  fst (random_key Demo2.counting Demo.genesis)
  = "0x000102030405060708090a0b0c0d0e0f101112131415161718191a1b1c1d1e1f"%string.
Proof. reflexivity. Qed.

(** With a node that cannot tell the head, [main] ends with the
    connection error at the first iteration. *)
Lemma failed_chain_read_ends_main_witness :
  fst (main Demo2.headless true 3 (start Demo.genesis)) = Raise ConnectionError.
Proof.
  apply failed_chain_read_ends_main. vm_compute. auto.
Defined.

(** With checks that come back empty, [main] ends with [IndexError]. *)
Lemma empty_receipts_raise_index_error_witness :
  fst (main (Demo.env Demo2.hollow) true 3 (start Demo.genesis))
  = Raise IndexError.
Proof.
  apply (proj2 (@empty_receipts_raise_index_error
                  _ _ _ _ (Demo.env Demo2.hollow) true
                  100 110 (start Demo.genesis) Demo.genesis
                  3 Demo.genesis)).
  vm_compute. auto.
Defined.

(** The bundle lands in block 115 and the report names that block. *)
Lemma success_names_block_of_first_receipt_witness :
  exists r0 rs,
    In (Return (r0 :: rs))
       (checks (log (snd (main (Demo.env (Demo.from_height 115)) true 5
                               (start Demo.genesis))))) /\
    In (Print (nl ++ "Bundle was mined in block "
               ++ str_int (blockNumber r0) ++ bel))
       (log (snd (main (Demo.env (Demo.from_height 115)) true 5
                       (start Demo.genesis)))).
Proof.
  apply success_names_block_of_first_receipt. reflexivity.
Defined.

(** A relay that refuses the bundle ends the run at the first send. *)
Lemma relay_refusal_is_not_retried_witness :
  let r := main Demo2.refusing true 5 (start Demo.genesis) in
  fst r = Raise (ValueError "invalid bundle") /\
  List.length (sends (log (snd r))) = 1%nat /\
  sleeps (log (snd r)) = [] /\
  stats_queries (log (snd r)) = [] /\
  checks (log (snd r)) = [] /\
  List.length (balance_reads (log (snd r))) = 2%nat.
Proof.
  apply (@relay_refusal_is_not_retried
           _ _ _ _ Demo2.refusing true (ValueError "invalid bundle")
           demo2_refusing_chain_answers demo2_refusing_relay_down
           4 Demo.genesis).
Defined.

(** A bundle that lands at once ends the run after one attempt. *)
Lemma landed_bundle_ends_after_one_attempt_witness :
  let r := main (Demo.env Demo2.landed) true 5 (start Demo.genesis) in
  fst r = Ok tt /\
  List.length (sends (log (snd r))) = 1%nat /\
  sleeps (log (snd r)) = [12] /\
  List.length (checks (log (snd r))) = 1%nat /\
  List.length (balance_reads (log (snd r))) = 4%nat.
Proof.
  apply (@landed_bundle_ends_after_one_attempt
           _ _ _ _ (Demo.env Demo2.landed) true
           (demo_responsive Demo2.landed) demo2_landed_always_found
           4 Demo.genesis).
Defined.

(** The key drawn in the small world has 66 characters. *)
Lemma random_key_is_hex_of_32_bytes_witness :
  String.length (fst (random_key Demo2.counting Demo.genesis)) = 66%nat.
Proof.
  apply (proj1 (proj2 (@random_key_is_hex_of_32_bytes
                         _ Demo2.counting Demo2.keyed Demo.genesis
                         eq_refl))).
Defined.
